(** * tutorials/custom_botorch_model_in_ax.ipynb

    A shallow embedding of the notebook's code cells: the custom Gaussian
    process [SimpleCustomGP], the model factory [_get_and_fit_custom_model],
    the evaluation function [branin], the search space, and the driving
    cells (Sobol warm start, then the GP+EI loop).

    What the notebook imports and only calls (gpytorch's modules and
    botorch's [fit_model], numpy's [cos], Python's [random], Ax's Sobol
    generator, model bridge and candidate generation) stays abstract: each
    is a field of one of the interfaces [PythonLibs], [GPLibs] and
    [AxLibs].  Python floats are IEEE binary64 values ([spec_float] at
    precision 53), a [dict] is a [gmap], an exception is a value of
    [exn], and the module-level state of [random] is passed explicitly.
    The experiment is an object its methods update: it holds its trials
    and the rows recorded for the trials that were evaluated, and
    [exp.eval()] returns it along with its result. *)

From Stdlib Require Import ZArith List Bool Lia.
From Stdlib Require Import Floats.SpecFloat.
From stdpp Require Import gmap strings.

Import ListNotations.
Local Open Scope string_scope.
Local Open Scope list_scope.

(** ** Python exceptions and results *)

Inductive exn : Type :=
  | KeyError (key : string)
  | IndexError
  | OverflowError
  | OtherError (class_name : string).

Inductive result (A : Type) : Type :=
  | Ok (a : A)
  | Raised (e : exn).

Arguments Ok {A} a.
Arguments Raised {A} e.

Definition bind {A B : Type} (r : result A) (k : A -> result B) : result B :=
  match r with
  | Ok a => k a
  | Raised e => Raised e
  end.

Notation "'let*' x := r 'in' k" := (bind r (fun x => k))
  (at level 10, x name, r at level 200, k at level 200).


(** ** Python floats: IEEE 754 binary64 *)

Module Float64.

Definition prec : Z := 53.
Definition emax : Z := 1024.

Definition float : Type := spec_float.

Definition add : float -> float -> float := SFadd prec emax.
Definition sub : float -> float -> float := SFsub prec emax.
Definition mul : float -> float -> float := SFmul prec emax.
Definition div : float -> float -> float := SFdiv prec emax.
Definition leb : float -> float -> bool := SFleb.
Definition eqb : float -> float -> bool := SFeqb.

(** An [int] operand of a mixed operation is converted to the float of
    the same value (exact for the small literals of the notebook). *)
Definition of_int (z : Z) : float := binary_normalize prec emax z 0 false.

Definition nan : float := S754_nan.
Definition zero : float := S754_zero false.

Definition is_nan (x : float) : bool :=
  match x with S754_nan => true | _ => false end.

Definition is_infinite (x : float) : bool :=
  match x with S754_infinity _ => true | _ => false end.

(** [mag_le K x]: [x] is a zero, or finite and below [2 ^ K] in absolute
    value. *)
Definition mag_le (K : Z) (x : float) : Prop :=
  match x with
  | S754_zero _ => True
  | S754_finite _ m e => (Zpos (digits2_pos m) + e <= K)%Z
  | _ => False
  end.

(** The literals [5.1] and [0.1], and [np.pi] (a Python float),
    as mantissa and exponent of their binary64 values. *)
Definition lit_5_1 : float := S754_finite false 5742089524897382 (-50).
Definition lit_0_1 : float := S754_finite false 7205759403792794 (-56).
Definition np_pi : float := S754_finite false 7074237752028440 (-51).

(** [v ** 2] on a Python float: CPython's [float_pow] at the exponent
    2.0.  It answers the special values itself (nan gives nan, an
    infinity gives +inf, a zero gives 0.0), takes the absolute value of
    a negative base, and hands any other base to the C library's [pow];
    an infinite result of that call is raised as [OverflowError].  The
    C library's result is taken here as the correctly rounded square: a
    [pow] that is off in the last place gives a result that differs
    there, and nothing below depends on that place. *)
Definition pow2 (v : float) : result float :=
  match v with
  | S754_nan => Ok v
  | S754_infinity _ => Ok (S754_infinity false)
  | S754_zero _ => Ok (S754_zero false)
  | S754_finite _ _ _ =>
      let ix := mul (SFabs v) (SFabs v) in
      if is_infinite ix then Raised OverflowError else Ok ix
  end.

End Float64.

Import Float64.

Declare Scope pyfloat_scope.
Delimit Scope pyfloat_scope with py.
Infix "+" := add : pyfloat_scope.
Infix "-" := sub : pyfloat_scope.
Infix "*" := mul : pyfloat_scope.
Infix "/" := div : pyfloat_scope.

(** [d[key]] on a dict: the value, or [KeyError]. *)
Definition getitem {V : Type} (d : gmap string V) (key : string) : result V :=
  match d !! key with
  | Some v => Ok v
  | None => Raised (KeyError key)
  end.

(** ** The evaluation function *)

(** What [branin] imports: [np.cos] on a float, the state of Python's
    module-level random generator, and [random.normalvariate mu sigma],
    a draw together with the state after it. *)
Class PythonLibs : Type := {
  np_cos : float -> float;
  rng_state : Type;
  normalvariate : float -> float -> rng_state -> float * rng_state
}.

Section Objective.

Context {py : PythonLibs}.

(** The first two statements of [branin]: everything before the noise.
    A float division raises [ZeroDivisionError] on a zero divisor; the
    three divisors here are constants other than zero
    ([divisors_nonzero] below), so [/] is the IEEE division. *)
Definition branin_noiseless (x1 x2 : float) : result float :=
  let* pi2 := pow2 np_pi in
  let c := (lit_5_1 / (of_int 4 * pi2))%py in
  let* x1_2 := pow2 x1 in
  let* y := pow2 (x2 - c * x1_2 + of_int 5 * x1 / np_pi - of_int 6)%py in
  Ok (y + (of_int 10 * (of_int 1 - of_int 1 / (of_int 8 * np_pi)) * np_cos x1
           + of_int 10))%py.

(** The draw of [random.normalvariate(0, 0.1)] with the generator in
    state [rng]. *)
Definition noise (rng : rng_state) : float :=
  fst (normalvariate (of_int 0) lit_0_1 rng).

(** [branin(parameterization, *args)]: the extra positional arguments
    (Ax passes the arm's weight) are accepted and never read. *)
Definition branin (parameterization : gmap string float)
    (args : list (option float)) (rng : rng_state)
  : result (gmap string (float * float)) * rng_state :=
  match
    (let* x1 := getitem parameterization "x1" in
     let* x2 := getitem parameterization "x2" in
     branin_noiseless x1 x2)
  with
  | Raised e => (Raised e, rng)
  | Ok y =>
      (Ok {[ "branin" := ((y + noise rng)%py, zero) ]},
       snd (normalvariate (of_int 0) lit_0_1 rng))
  end.

End Objective.

(** ** The search space *)

Inductive ParameterType : Type := FLOAT | INT.

Record RangeParameter : Type := {
  name : string;
  parameter_type : ParameterType;
  lower : Z;
  upper : Z
}.

Record SearchSpace : Type := { parameters : list RangeParameter }.

Definition search_space : SearchSpace :=
  {| parameters :=
       [ {| name := "x1"; parameter_type := FLOAT; lower := -5; upper := 10 |};
         {| name := "x2"; parameter_type := FLOAT; lower := 0; upper := 15 |} ] |}.

(** A float lies in the range of a parameter when it is a binary64 value
    (a zero, or a mantissa and exponent in canonical form) between the
    two bounds. *)
Definition in_range (r : RangeParameter) (x : float) : bool :=
  valid_binary prec emax x && leb (of_int (lower r)) x && leb x (of_int (upper r)).

(** A parameterization belongs to a search space when it gives every
    parameter a value of its range. *)
Definition in_search_space (space : SearchSpace) (p : gmap string float) : bool :=
  forallb (fun r => match p !! name r with
                    | Some x => in_range r x
                    | None => false
                    end)
          (parameters space).

(** ** Tensors *)

(** A tensor is its shape and its entries in row-major order. *)
Record Tensor : Type := { shape : list nat; entries : list float }.

Definition numel (t : Tensor) : nat := foldr Nat.mul 1 (shape t).

(** What [t.view(-1)] returns: one dimension holding every entry. *)
Definition view_flat (t : Tensor) : Tensor :=
  {| shape := [numel t]; entries := entries t |}.

(** [t.shape[-1]]: indexing the empty shape of a 0-dimensional tensor
    raises [IndexError]. *)
Definition shape_last (t : Tensor) : result nat :=
  match last (shape t) with
  | Some d => Ok d
  | None => Raised IndexError
  end.

(** [l[i]] on a list, for an index from the front. *)
Definition list_getitem {A : Type} (l : list A) (i : nat) : result A :=
  match l !! i with
  | Some a => Ok a
  | None => Raised IndexError
  end.

(** What a keyword argument of the factory may hold. *)
Inductive PyObject : Type :=
  | PyNone
  | PyFloat (x : float)
  | PyInt (z : Z)
  | PyStr (s : string)
  | PyTensors (ts : list Tensor)
  | PyStateDict (d : list (string * Tensor)).

(** ** The custom model and its factory *)

(** What the model imports from gpytorch and botorch.
    - [module_state]: the parameters held by the model's modules
      (likelihood, mean and kernel); [initial_state d] is their value
      right after [GaussianLikelihood()], [ConstantMean()] and
      [ScaleKernel(base_kernel=RBFKernel(ard_num_dims=d))].
    - [mean_module] and [covar_module]: the two modules called on [x].
    - [fit_model]:
      [fit_model(ExactMarginalLogLikelihood(model.likelihood, model))]
      updates the parameters of the model it was given, or raises; its
      arguments here are the model's training data and the parameters
      before the call.
    - [can_view t]: whether torch can show [t] as one dimension without
      copying it; that is decided by the strides of [t], which the
      record [Tensor] does not hold. *)
Class GPLibs : Type := {
  module_state : Type;
  initial_state : nat -> module_state;
  mean_module : module_state -> Tensor -> Tensor;
  covar_module : module_state -> Tensor -> Tensor;
  fit_model : Tensor -> Tensor -> module_state -> result module_state;
  can_view : Tensor -> bool
}.

Section Model.

Context {gp : GPLibs}.

Record SimpleCustomGP : Type := {
  train_X : Tensor;
  train_Y : Tensor;
  ard_num_dims : nat;
  state : module_state
}.

Record MultivariateNormal : Type := { mvn_mean : Tensor; mvn_covar : Tensor }.

(** [t.view(-1)] as torch answers it: the flat tensor, or a
    [RuntimeError] when the strides of [t] do not allow the view. *)
Definition view (t : Tensor) : result Tensor :=
  if can_view t then Ok (view_flat t) else Raised (OtherError "RuntimeError").

(** [SimpleCustomGP.__init__(train_X, train_Y)]. *)
Definition SimpleCustomGP_init (X Y : Tensor) : result SimpleCustomGP :=
  let* d := shape_last X in
  Ok {| train_X := X; train_Y := Y; ard_num_dims := d;
        state := initial_state d |}.

Definition forward (self : SimpleCustomGP) (x : Tensor) : MultivariateNormal :=
  let mean_x := mean_module (state self) x in
  let covar_x := covar_module (state self) x in
  {| mvn_mean := mean_x; mvn_covar := covar_x |}.

Definition num_outputs (self : SimpleCustomGP) : nat := 1.

(** [_get_and_fit_custom_model(Xs, Ys, **kwargs)]: [Yvars], [state_dict]
    and any other keyword land in [kwargs]. *)
Definition _get_and_fit_custom_model (Xs Ys : list Tensor)
    (kwargs : gmap string PyObject) : result SimpleCustomGP :=
  let* X0 := list_getitem Xs 0 in
  let* Y0 := list_getitem Ys 0 in
  let* Y := view Y0 in
  let* model := SimpleCustomGP_init X0 Y in
  let* fitted := fit_model (train_X model) (train_Y model) (state model) in
  Ok {| train_X := train_X model; train_Y := train_Y model;
        ard_num_dims := ard_num_dims model; state := fitted |}.

End Model.

(** ** The experiment as the notebook drives it *)

Record Arm : Type := { arm_parameters : gmap string float }.

Record Trial : Type := { trial_index : nat; trial_arms : list Arm }.

(** One row of the data Ax hands to the model bridge. *)
Record Observation : Type := {
  obs_trial : nat;
  obs_arm : Arm;
  metric_name : string;
  mean : float;
  sem : float
}.

(** A row as [branin] reports it: the metric ["branin"], measured
    without error. *)
Definition branin_row (o : Observation) : Prop :=
  metric_name o = "branin" /\ sem o = zero.

Definition arm_in_search_space (a : Arm) : bool :=
  in_search_space search_space (arm_parameters a).

(** The experiment: what it was created with, the trials attached to
    it, and the rows recorded for the trials that were evaluated, by
    trial index. *)
Record SimpleExperiment : Type := {
  exp_name : string;
  exp_search_space : SearchSpace;
  objective_name : string;
  minimize : bool;
  trials : list Trial;
  data_by_trial : gmap nat (list Observation)
}.

(** The arms attached to the experiment, in trial order. *)
Definition arms_of (e : SimpleExperiment) : list Arm :=
  concat (map trial_arms (trials e)).

(** [exp.lookup_data_for_trial(i)]: the rows recorded for trial [i]; no
    row for a trial that was not evaluated. *)
Definition lookup_data_for_trial (e : SimpleExperiment) (i : nat)
  : list Observation :=
  default [] (data_by_trial e !! i).

(** The observations the experiment holds: the recorded rows, in trial
    order. *)
Definition observations (e : SimpleExperiment) : list Observation :=
  flat_map (fun t => lookup_data_for_trial e (trial_index t)) (trials e).

(** [exp.attach_data(data)] for the rows of trial [i]. *)
Definition attach_data (e : SimpleExperiment) (i : nat) (rows : list Observation)
  : SimpleExperiment :=
  {| exp_name := exp_name e; exp_search_space := exp_search_space e;
     objective_name := objective_name e; minimize := minimize e;
     trials := trials e;
     data_by_trial := <[ i := rows ]> (data_by_trial e) |}.

(** [exp.new_batch_trial(generator_run=...)] and
    [exp.new_trial(generator_run=...)]: a trial with the arms of the
    generator run is appended; the call returns it.  Nothing is
    evaluated. *)
Definition new_trial (e : SimpleExperiment) (generator_run : list Arm)
  : SimpleExperiment * Trial :=
  let t := {| trial_index := length (trials e); trial_arms := generator_run |} in
  ({| exp_name := exp_name e; exp_search_space := exp_search_space e;
      objective_name := objective_name e; minimize := minimize e;
      trials := trials e ++ [t];
      data_by_trial := data_by_trial e |}, t).

(** The rows of trial [i] with arms [arms] as an evaluation records
    them: one per arm, in order, each of the metric ["branin"] with
    standard error 0.0. *)
Definition rows_for (i : nat) (arms : list Arm) (rows : list Observation) : Prop :=
  map (fun o => (obs_trial o, obs_arm o)) rows = map (pair i) arms /\
  Forall branin_row rows.

(** An experiment as the calls of the notebook leave it: the trials are
    numbered in order from 0, and what is recorded under an index are
    the rows of the trial of that index. *)
Definition well_recorded (e : SimpleExperiment) : Prop :=
  map trial_index (trials e) = seq 0 (length (trials e)) /\
  forall i rows, data_by_trial e !! i = Some rows ->
    exists t, trials e !! i = Some t /\ rows_for i (trial_arms t) rows.

(** [e'] is [e] with more rows recorded: the rows there were are kept
    and nothing else of the experiment differs. *)
Definition records_more (e e' : SimpleExperiment) : Prop :=
  exp_name e' = exp_name e /\ exp_search_space e' = exp_search_space e /\
  objective_name e' = objective_name e /\ minimize e' = minimize e /\
  trials e' = trials e /\
  forall i o rows, lookup_data_for_trial e i = o :: rows ->
                   lookup_data_for_trial e' i = o :: rows.

Record TorchModelBridge {gp : GPLibs} : Type := {
  bridge_search_space : SearchSpace;
  bridge_data : list Observation;
  bridge_model : SimpleCustomGP
}.

(** What the driving cells import from Ax.
    - [bridge_tensors]: Ax's side of [TorchModelBridge(...)], the data
      passed through [Cont_X_trans + Y_trans], as the [Xs], [Ys] and
      [Yvars] the model constructor is called with.
    - [sobol_point space j]: the [j]-th point of the Sobol generator made
      by [modelbridge.get_sobol(space)].
    - [acquisition cm n]: what [cm.gen(n)] finds by optimising the
      acquisition function of the fitted model, the candidates by rank,
      or the exception the optimisation raised. *)
Class AxLibs {gp : GPLibs} : Type := {
  bridge_tensors :
    SearchSpace -> list Observation -> list Tensor * list Tensor * list Tensor;
  sobol_point : SearchSpace -> nat -> Arm;
  acquisition : TorchModelBridge -> nat -> result (nat -> Arm)
}.

Section Notebook.

Context {py : PythonLibs} {gp : GPLibs} {ax : AxLibs}.

(** [sobol.gen(n)]: a generator run of [n] arms, the first [n] points of
    the generator. *)
Definition sobol_gen (space : SearchSpace) (n : nat) : list Arm :=
  map (sobol_point space) (seq 0 n).

(** [custom_model.gen(n)]: a generator run of [n] arms, the [n]
    candidates, unless the optimisation raises. *)
Definition gen (self : TorchModelBridge) (n : nat) : result (list Arm) :=
  let* candidate := acquisition self n in
  Ok (map candidate (seq 0 n)).

(** The rows of one evaluated arm: one per metric the evaluation
    function reported. *)
Definition rows_of (t : nat) (a : Arm) (metrics : gmap string (float * float))
  : list Observation :=
  map (fun kv => {| obs_trial := t; obs_arm := a; metric_name := fst kv;
                    mean := fst (snd kv); sem := snd (snd kv) |})
      (map_to_list metrics).

(** The experiment was made with [evaluation_function=branin]; Ax calls
    it on the parameters of each arm of a trial, with the arm's weight
    as second argument. *)
Fixpoint eval_arms (t : nat) (arms : list Arm) (rng : rng_state)
  : result (list Observation) * rng_state :=
  match arms with
  | [] => (Ok [], rng)
  | a :: rest =>
      match branin (arm_parameters a) [None] rng with
      | (Raised e, rng1) => (Raised e, rng1)
      | (Ok metrics, rng1) =>
          match eval_arms t rest rng1 with
          | (Raised e, rng2) => (Raised e, rng2)
          | (Ok data, rng2) => (Ok (rows_of t a metrics ++ data), rng2)
          end
      end
  end.

(** [exp.eval_trial(trial)]: a trial with recorded rows is not evaluated
    again, its rows are returned as they are; a trial without arms gives
    no row; any other trial is evaluated and its rows are recorded.
    When the evaluation function raises, nothing is recorded for the
    trial. *)
Definition eval_trial (e : SimpleExperiment) (t : Trial) (rng : rng_state)
  : result (list Observation) * SimpleExperiment * rng_state :=
  match lookup_data_for_trial e (trial_index t) with
  | o :: cached => (Ok (o :: cached), e, rng)
  | [] =>
      match trial_arms t with
      | [] => (Ok [], e, rng)
      | _ :: _ =>
          match eval_arms (trial_index t) (trial_arms t) rng with
          | (Raised ex, rng1) => (Raised ex, e, rng1)
          | (Ok rows, rng1) => (Ok rows, attach_data e (trial_index t) rows, rng1)
          end
      end
  end.

Fixpoint eval_trials (e : SimpleExperiment) (ts : list Trial) (rng : rng_state)
  : result (list Observation) * SimpleExperiment * rng_state :=
  match ts with
  | [] => (Ok [], e, rng)
  | t :: rest =>
      match eval_trial e t rng with
      | (Raised ex, e1, rng1) => (Raised ex, e1, rng1)
      | (Ok rows, e1, rng1) =>
          match eval_trials e1 rest rng1 with
          | (Raised ex, e2, rng2) => (Raised ex, e2, rng2)
          | (Ok data, e2, rng2) => (Ok (rows ++ data), e2, rng2)
          end
      end
  end.

(** [exp.eval()]: [eval_trial] on every trial, in order; the rows come
    back as one table.  The experiment is an object the call updates:
    the second component is the experiment after the call, also when it
    raised. *)
Definition eval (e : SimpleExperiment) (rng : rng_state)
  : result (list Observation) * SimpleExperiment * rng_state :=
  eval_trials e (trials e) rng.

(** [make_custom_model(exp)]: [exp.search_space] and [exp.eval()] are
    arguments of the constructor call, so the evaluation has run when
    the model is made. *)
Definition make_custom_model (e : SimpleExperiment) (rng : rng_state)
  : result TorchModelBridge * SimpleExperiment * rng_state :=
  match eval e rng with
  | (Raised ex, e1, rng1) => (Raised ex, e1, rng1)
  | (Ok data, e1, rng1) =>
      let '(Xs, Ys, Yvars) := bridge_tensors (exp_search_space e) data in
      let kwargs : gmap string PyObject :=
        {[ "Yvars" := PyTensors Yvars; "state_dict" := PyNone ]} in
      match _get_and_fit_custom_model Xs Ys kwargs with
      | Raised ex => (Raised ex, e1, rng1)
      | Ok model =>
          (Ok {| bridge_search_space := exp_search_space e;
                 bridge_data := data; bridge_model := model |}, e1, rng1)
      end
  end.

(** The names the notebook's cells bind, and the random generator. *)
Record Notebook : Type := {
  exp : SimpleExperiment;
  custom_model : option TorchModelBridge;
  batch : option Trial;
  rng : rng_state
}.

(** How a run of the loop cell ends: it falls through to [print("Done!")],
    or the exception raised in round [i] leaves the cell. *)
Inductive outcome : Type :=
  | Done
  | Failed (i : nat) (e : exn).

(** [exp = SimpleExperiment(name="test_branin", ...)]. *)
Definition new_experiment : SimpleExperiment :=
  {| exp_name := "test_branin"; exp_search_space := search_space;
     objective_name := "branin"; minimize := true; trials := [];
     data_by_trial := ∅ |}.

(** [sobol = modelbridge.get_sobol(exp.search_space)] and
    [exp.new_batch_trial(generator_run=sobol.gen(w))]; [w] is 5 in the
    notebook. *)
Definition warm_start (w : nat) (rng0 : rng_state) : Notebook :=
  let e := new_experiment in
  {| exp := fst (new_trial e (sobol_gen (exp_search_space e) w));
     custom_model := None; batch := None; rng := rng0 |}.

(** The names after the two statements of the loop body:
    [custom_model = make_custom_model(exp)] has returned [cm] and left
    the experiment as [exp1], [custom_model.gen(b)] has returned
    [generator_run], and [batch = exp.new_trial(...)] has attached it. *)
Definition after_round (cm : TorchModelBridge) (exp1 : SimpleExperiment)
    (rng1 : rng_state) (generator_run : list Arm) : Notebook :=
  {| exp := fst (new_trial exp1 generator_run);
     custom_model := Some cm;
     batch := Some (snd (new_trial exp1 generator_run));
     rng := rng1 |}.

(** The names after [make_custom_model(exp)] has raised: none is
    rebound; the experiment is as [exp.eval()] left it. *)
Definition after_failure (nb : Notebook) (exp1 : SimpleExperiment)
    (rng1 : rng_state) : Notebook :=
  {| exp := exp1; custom_model := custom_model nb; batch := batch nb;
     rng := rng1 |}.

(** The names after [custom_model.gen(b)] has raised: [custom_model] is
    bound to the model of this round, [batch] is not rebound and no
    trial is attached. *)
Definition after_gen_failure (nb : Notebook) (cm : TorchModelBridge)
    (exp1 : SimpleExperiment) (rng1 : rng_state) : Notebook :=
  {| exp := exp1; custom_model := Some cm; batch := batch nb; rng := rng1 |}.

(** The loop cell, [for i in rounds], with [custom_model.gen(b)]; the
    notebook has [range(5)] and [b = 1].  Nothing catches an exception:
    the one raised in round [i] ends the cell. *)
Fixpoint optimization_loop (b : nat) (rounds : list nat) (nb : Notebook)
  : Notebook * outcome :=
  match rounds with
  | [] => (nb, Done)
  | i :: rest =>
      match make_custom_model (exp nb) (rng nb) with
      | (Raised e, exp1, rng1) => (after_failure nb exp1 rng1, Failed i e)
      | (Ok cm, exp1, rng1) =>
          match gen cm b with
          | Raised e => (after_gen_failure nb cm exp1 rng1, Failed i e)
          | Ok generator_run =>
              optimization_loop b rest (after_round cm exp1 rng1 generator_run)
          end
      end
  end.

Definition run (w n b : nat) (rng0 : rng_state) : Notebook * outcome :=
  optimization_loop b (seq 0 n) (warm_start w rng0).

(** The notebook as written: 5 Sobol points, 5 rounds of one candidate. *)
Definition notebook (rng0 : rng_state) : Notebook * outcome := run 5 5 1 rng0.

End Notebook.

(** ** Small stand-ins for the libraries

    Enough of each interface to run the cells on concrete data: a cosine
    that is right at [0.0] (every arm below has [x1 = 0.0]), a noise
    source whose draws are all the mean, a fit that leaves the parameters
    where they start, one that never converges, and generators that
    return fixed points of the search space. *)

Module Stub.

Definition python : PythonLibs :=
  {| np_cos := fun _ => of_int 1;
     rng_state := nat;
     normalvariate := fun mu _ s => (mu, S s) |}.

Definition gpytorch : GPLibs :=
  {| module_state := list float;
     initial_state := fun d => repeat zero (d + 3);
     mean_module := fun _ x => x;
     covar_module := fun _ x => x;
     fit_model := fun _ _ st => Ok st;
     can_view := fun _ => true |}.

Definition diverging : GPLibs :=
  {| module_state := list float;
     initial_state := fun d => repeat zero (d + 3);
     mean_module := fun _ x => x;
     covar_module := fun _ x => x;
     fit_model := fun _ _ _ => Raised (OtherError "FitDivergedError");
     can_view := fun _ => true |}.

Definition point (x1 x2 : Z) : Arm :=
  {| arm_parameters := {[ "x1" := of_int x1; "x2" := of_int x2 ]} |}.

Definition feature (a : Arm) (key : string) : float :=
  default nan (arm_parameters a !! key).

Definition tensors (data : list Observation)
  : list Tensor * list Tensor * list Tensor :=
  ([ {| shape := [length data; 2];
        entries := flat_map (fun o => [feature (obs_arm o) "x1";
                                       feature (obs_arm o) "x2"]) data |} ],
   [ {| shape := [length data; 1]; entries := map mean data |} ],
   [ {| shape := [length data; 1];
        entries := map (fun o => (sem o * sem o)%py) data |} ]).

(** Training data of two outcomes observed at the same two points. *)
Definition X_train : Tensor :=
  {| shape := [2; 2]; entries := [of_int 0; of_int 1; of_int 0; of_int 2] |}.
Definition Y_train : Tensor :=
  {| shape := [2; 1]; entries := [of_int 7; of_int 9] |}.
Definition Y_other : Tensor :=
  {| shape := [2; 1]; entries := [of_int 1; of_int 4] |}.

Definition ax (gp : GPLibs) : AxLibs :=
  {| bridge_tensors := fun _ data => tensors data;
     sobol_point := fun _ j => point 0 (Z.of_nat (j mod 16));
     acquisition := fun cm _ =>
       Ok (fun j => point 0 (Z.of_nat ((length (bridge_data cm) + j) mod 16))) |}.

(** The notebook after the warm-start cell, on the never-converging fit,
    what [exp.eval()] returns for it, and the experiment it leaves. *)
Definition warm : Notebook (py := python) (gp := diverging) :=
  warm_start (py := python) (gp := diverging) (ax := ax _) 5 0.

Definition warm_data : list Observation :=
  match fst (fst (eval (py := python) (exp warm) 0)) with
  | Ok data => data
  | Raised _ => []
  end.

Definition warm_evaluated : SimpleExperiment :=
  snd (fst (eval (py := python) (exp warm) 0)).

(** The notebook run to its end on the fit that succeeds. *)
Definition finished : Notebook (py := python) (gp := gpytorch) :=
  fst (notebook (py := python) (gp := gpytorch) (ax := ax _) 0).

End Stub.

(** A fit that converges on five observations and on no more, and the
    notebook run on it. *)
Module Stalling.

Definition gpytorch : GPLibs :=
  {| module_state := list float;
     initial_state := fun d => repeat zero (d + 3);
     mean_module := fun _ x => x;
     covar_module := fun _ x => x;
     fit_model := fun _ Y st =>
       if (length (entries Y) <=? 5)%nat then Ok st
       else Raised (OtherError "NotPSDError");
     can_view := fun _ => true |}.

Definition stopped : Notebook (py := Stub.python) (gp := gpytorch) :=
  fst (notebook (py := Stub.python) (gp := gpytorch) (ax := Stub.ax _) 0).

End Stalling.

(** Tensors whose strides allow no flat view. *)
Module Strided.

Definition gpytorch : GPLibs :=
  {| module_state := list float;
     initial_state := fun d => repeat zero (d + 3);
     mean_module := fun _ x => x;
     covar_module := fun _ x => x;
     fit_model := fun _ _ st => Ok st;
     can_view := fun _ => false |}.

End Strided.

(** * Facts *)

(** ** Floats *)

Lemma add_nan_l (x : float) : (nan + x)%py = nan.
Proof. reflexivity. Qed.

Lemma sub_nan_r (x : float) : (x - nan)%py = nan.
Proof. destruct x; reflexivity. Qed.

Lemma mul_nan_r (x : float) : (x * nan)%py = nan.
Proof. destruct x; reflexivity. Qed.

Lemma is_nan_eq (x : float) : is_nan x = true -> x = nan.
Proof. destruct x; intros H; try discriminate H; reflexivity. Qed.

(** [np.pi ** 2] never raises: it is the float nearest to 9.8696. *)
Lemma pow2_np_pi : pow2 np_pi = Ok (S754_finite false 5556093337880030 (-49)).
Proof. vm_compute. reflexivity. Qed.

(** The divisors of [branin] are not zero. *)
Lemma divisors_nonzero :
  eqb (of_int 4 * S754_finite false 5556093337880030 (-49))%py zero = false /\
  eqb np_pi zero = false /\
  eqb (of_int 8 * np_pi)%py zero = false.
Proof. vm_compute. repeat split. Qed.

(** *** Magnitudes

    A float below [2 ^ K] in absolute value stays below a power of two
    through each operation, so the operations of a bounded computation
    stay finite. *)

Section FloatBounds.

Local Open Scope Z_scope.

Lemma mag_le_weaken (K K' : Z) (x : spec_float) :
  K <= K' -> mag_le K x -> mag_le K' x.
Proof. destruct x; unfold mag_le; auto. lia. Qed.

(** A mantissa of [d] digits lies in [[2 ^ (d - 1), 2 ^ d)]. *)
Lemma digits2_pos_upper (p : positive) : Zpos p < 2 ^ Zpos (digits2_pos p).
Proof.
  induction p as [p IH | p IH | ]; cbn [digits2_pos].
  - rewrite Pos2Z.inj_succ, Z.pow_succ_r by lia. lia.
  - rewrite Pos2Z.inj_succ, Z.pow_succ_r by lia. lia.
  - cbn. lia.
Qed.

Lemma digits2_pos_lower (p : positive) : 2 ^ (Zpos (digits2_pos p) - 1) <= Zpos p.
Proof.
  induction p as [p IH | p IH | ]; cbn [digits2_pos].
  - rewrite Pos2Z.inj_succ.
    replace (Z.succ (Zpos (digits2_pos p)) - 1) with (Z.succ (Zpos (digits2_pos p) - 1)) by lia.
    rewrite Z.pow_succ_r by lia. lia.
  - rewrite Pos2Z.inj_succ.
    replace (Z.succ (Zpos (digits2_pos p)) - 1) with (Z.succ (Zpos (digits2_pos p) - 1)) by lia.
    rewrite Z.pow_succ_r by lia. lia.
  - cbn. lia.
Qed.

(** A non-negative [m] below [2 ^ n] has at most [n] digits. *)
Lemma Zdigits2_le (m n : Z) : 0 <= m -> 0 <= n -> m < 2 ^ n -> Zdigits2 m <= n.
Proof.
  intros Hm Hn H. destruct m as [ | p | p]; cbn; [ lia | | lia ].
  pose proof (digits2_pos_lower p) as L.
  assert (2 ^ (Zpos (digits2_pos p) - 1) < 2 ^ n) as Hlt by lia.
  apply (proj2 (Z.pow_lt_mono_r_iff 2 (Zpos (digits2_pos p) - 1) n ltac:(lia) Hn)) in Hlt.
  lia.
Qed.

(** Shifting a mantissa right by one bit takes one digit off. *)
Lemma shr_1_digits (mrs : shr_record) :
  Zdigits2 (shr_m (shr_1 mrs)) = Z.max 0 (Zdigits2 (shr_m mrs) - 1).
Proof.
  destruct mrs as [m r s].
  destruct m as [ | [p | p | ] | [p | p | ]];
    cbn [shr_1 shr_m Zdigits2 digits2_pos]; rewrite ?Pos2Z.inj_succ; lia.
Qed.

Lemma shr_1_nonneg (mrs : shr_record) : 0 <= shr_m mrs -> 0 <= shr_m (shr_1 mrs).
Proof.
  destruct mrs as [m r s]. destruct m as [ | [p | p | ] | [p | p | ]]; cbn; lia.
Qed.

Lemma iter_shr_1_digits (p : positive) :
  forall mrs : shr_record,
    Zdigits2 (shr_m (SpecFloat.iter_pos shr_1 p mrs)) = Z.max 0 (Zdigits2 (shr_m mrs) - Zpos p).
Proof.
  induction p as [p IH | p IH | ]; intros mrs; cbn [SpecFloat.iter_pos].
  - rewrite !IH, shr_1_digits. lia.
  - rewrite !IH. lia.
  - apply shr_1_digits.
Qed.

Lemma iter_shr_1_nonneg (p : positive) :
  forall mrs : shr_record, 0 <= shr_m mrs -> 0 <= shr_m (SpecFloat.iter_pos shr_1 p mrs).
Proof.
  induction p as [p IH | p IH | ]; intros mrs H; cbn [SpecFloat.iter_pos].
  - apply IH, IH, shr_1_nonneg, H.
  - apply IH, IH, H.
  - apply shr_1_nonneg, H.
Qed.

Lemma shr_m_of_loc (m : Z) (l : location) : shr_m (shr_record_of_loc m l) = m.
Proof. destruct l as [ | [ | | ]]; reflexivity. Qed.

Lemma fexp_eq (z : Z) : fexp prec emax z = Z.max (z - 53) (-1074).
Proof. reflexivity. Qed.

(** [shr_fexp]: mantissa non-negative, magnitude and exponent bounded. *)
Lemma shr_fexp_bound (m e : Z) (l : location) :
  0 <= m ->
  let r := shr_fexp prec emax m e l in
  0 <= shr_m (fst r) /\
  snd r = Z.max e (fexp prec emax (Zdigits2 m + e)) /\
  Zdigits2 (shr_m (fst r)) + snd r
    <= Z.max (Zdigits2 m + e) (fexp prec emax (Zdigits2 m + e)).
Proof.
  intros Hm. unfold shr_fexp, shr.
  destruct (fexp prec emax (Zdigits2 m + e) - e) as [ | n | n] eqn:En; cbn [fst snd].
  - rewrite shr_m_of_loc. lia.
  - rewrite iter_shr_1_digits, shr_m_of_loc. split.
    + apply iter_shr_1_nonneg. rewrite shr_m_of_loc. exact Hm.
    + lia.
  - rewrite shr_m_of_loc. lia.
Qed.

Lemma digits2_pos_succ (p : positive) :
  Zpos (digits2_pos (Pos.succ p)) <= Zpos (digits2_pos p) + 1.
Proof.
  induction p as [p IH | p IH | ].
  - change (Pos.succ (xI p)) with (xO (Pos.succ p)). cbn [digits2_pos].
    rewrite !Pos2Z.inj_succ. lia.
  - change (Pos.succ (xO p)) with (xI p). cbn [digits2_pos].
    rewrite !Pos2Z.inj_succ. lia.
  - change (Pos.succ xH) with (xO xH). cbn [digits2_pos].
    rewrite !Pos2Z.inj_succ. lia.
Qed.

(** Rounding adds at most one to the mantissa, so at most one digit. *)
Lemma round_nearest_even_bound (m : Z) (l : location) :
  0 <= m ->
  0 <= round_nearest_even m l /\
  Zdigits2 (round_nearest_even m l) <= Zdigits2 m + 1.
Proof.
  intros Hm.
  assert (Hs : Zdigits2 (m + 1) <= Zdigits2 m + 1).
  { destruct m as [ | p | p]; [ vm_compute; discriminate | | lia ].
    replace (Zpos p + 1) with (Zpos (Pos.succ p)) by lia.
    apply digits2_pos_succ. }
  unfold round_nearest_even.
  destruct l as [ | [ | | ]]; try destruct (Z.even m); split; lia.
Qed.

(** Rounding a mantissa and exponent below [2 ^ K] gives a zero or a
    finite float below [2 ^ (K + 1)], never an infinity while [K] stays
    under the largest exponent. *)
Lemma binary_round_aux_bound (s : bool) (mx ex : Z) (l : location) (K : Z) :
  0 <= mx -> ex <= 971 -> Zdigits2 mx + ex <= K -> -1074 <= K -> K <= 1023 ->
  mag_le (K + 1) (binary_round_aux prec emax s mx ex l).
Proof.
  intros Hm Hex HD HK1 HK2. unfold binary_round_aux.
  pose proof (shr_fexp_bound mx ex l Hm) as H1. cbv zeta in H1.
  destruct (shr_fexp prec emax mx ex l) as [mrs' e'] eqn:E1. cbn [fst snd] in H1.
  destruct H1 as (N1 & Ee1 & D1).
  pose proof (round_nearest_even_bound (shr_m mrs') (loc_of_shr_record mrs') N1)
    as [N2 D2].
  set (m2 := round_nearest_even (shr_m mrs') (loc_of_shr_record mrs')) in *.
  pose proof (shr_fexp_bound m2 e' loc_Exact N2) as H3. cbv zeta in H3.
  destruct (shr_fexp prec emax m2 e' loc_Exact) as [mrs'' e''] eqn:E3.
  cbn [fst snd] in H3. destruct H3 as (N3 & Ee3 & D3).
  rewrite !fexp_eq in *.
  destruct (shr_m mrs'') as [ | m | m] eqn:Em; try rewrite Em in N3, D3.
  - exact I.
  - destruct (Z.leb_spec e'' (emax - prec)) as [Hle | Hgt].
    + cbn [mag_le]. cbn [Zdigits2] in D3. lia.
    + unfold emax, prec in Hgt. lia.
  - lia.
Qed.

Lemma digits2_pos_mul (a b : positive) :
  Zpos (digits2_pos (a * b)) <= Zpos (digits2_pos a) + Zpos (digits2_pos b).
Proof.
  pose proof (digits2_pos_upper a) as Ha. pose proof (digits2_pos_upper b) as Hb.
  change (Zpos (digits2_pos (a * b))) with (Zdigits2 (Zpos (a * b))).
  apply Zdigits2_le; [ lia | lia | ].
  rewrite Z.pow_add_r by lia. rewrite Pos2Z.inj_mul. nia.
Qed.

(** Products, sums, differences and quotients of bounded floats. *)
Lemma mul_bound (x y : spec_float) (k1 k2 : Z) :
  mag_le k1 x -> mag_le k2 y -> -1074 <= k1 + k2 -> k1 + k2 <= 973 ->
  mag_le (k1 + k2 + 1) (SFmul prec emax x y).
Proof.
  intros Hx Hy L U.
  destruct x as [sx | sx | | sx mx ex]; destruct y as [sy | sy | | sy my ey];
    unfold mag_le in Hx, Hy; try contradiction; try exact I.
  cbn [SFmul]. apply binary_round_aux_bound; try lia.
  cbn [Zdigits2]. pose proof (digits2_pos_mul mx my). lia.
Qed.

Lemma digits2_pos_iter_xO (m d : positive) :
  Zpos (digits2_pos (Pos.iter xO m d)) = Zpos (digits2_pos m) + Zpos d.
Proof.
  induction d as [ | d IH] using Pos.peano_ind.
  - cbn [Pos.iter digits2_pos]. rewrite Pos2Z.inj_succ. lia.
  - rewrite Pos.iter_succ. cbn [digits2_pos].
    rewrite !Pos2Z.inj_succ, IH. lia.
Qed.

(** [shl_align] keeps the magnitude and never raises the exponent. *)
Lemma shl_align_bound (m : positive) (e e' : Z) :
  let r := shl_align m e e' in
  Zpos (digits2_pos (fst r)) + snd r = Zpos (digits2_pos m) + e /\
  snd r = Z.min e e'.
Proof.
  unfold shl_align. destruct (e' - e) as [ | d | d] eqn:Ed; cbn [fst snd].
  - lia.
  - lia.
  - rewrite digits2_pos_iter_xO. lia.
Qed.

Lemma binary_round_bound (s : bool) (m : positive) (e K : Z) :
  e <= 971 -> Zpos (digits2_pos m) + e <= K -> -1074 <= K -> K <= 1023 ->
  mag_le (K + 1) (binary_round prec emax s m e).
Proof.
  intros He HD HK1 HK2. unfold binary_round.
  pose proof (shl_align_bound m e (fexp prec emax (Zpos (digits2_pos m) + e))) as H.
  cbv zeta in H.
  destruct (shl_align m e (fexp prec emax (Zpos (digits2_pos m) + e))) as [mz ez].
  cbn [fst snd] in H. destruct H as [H1 H2].
  apply binary_round_aux_bound; cbn [Zdigits2]; lia.
Qed.

Lemma binary_normalize_bound (S e K : Z) :
  e <= 971 -> Z.abs S < 2 ^ (K - e) -> e <= K -> -1074 <= K -> K <= 1023 ->
  mag_le (K + 1) (binary_normalize prec emax S e false).
Proof.
  intros He HS HeK HK1 HK2. unfold binary_normalize.
  destruct S as [ | m | m]; [ exact I | | ];
    apply binary_round_bound; try lia;
    pose proof (Zdigits2_le (Zpos m) (K - e)) as H; cbn [Zdigits2] in H; lia.
Qed.

Lemma aligned_mantissa_bound (m : positive) (e ez k : Z) :
  ez <= e -> Zpos (digits2_pos m) + e <= k ->
  Zpos (fst (shl_align m e ez)) < 2 ^ (k - ez).
Proof.
  intros Hez Hk.
  pose proof (shl_align_bound m e ez) as H. cbv zeta in H. destruct H as [H1 H2].
  pose proof (digits2_pos_upper (fst (shl_align m e ez))) as U.
  eapply Z.lt_le_trans; [ exact U | ].
  apply Z.pow_le_mono_r; lia.
Qed.

Lemma cond_Zopp_abs (s : bool) (m : Z) : Z.abs (cond_Zopp s m) = Z.abs m.
Proof. destruct s; cbn [cond_Zopp]; lia. Qed.

Lemma two_pow_double (n : Z) : 0 <= n -> 2 ^ (n + 1) = 2 * 2 ^ n.
Proof. intros H. rewrite Z.pow_add_r by lia. lia. Qed.

Lemma add_bound (x y : spec_float) (k : Z) :
  mag_le k x -> mag_le k y -> -1074 <= k -> k <= 972 ->
  mag_le (k + 2) (SFadd prec emax x y).
Proof.
  intros Hx Hy L U.
  destruct x as [sx | sx | | sx mx ex]; destruct y as [sy | sy | | sy my ey];
    unfold mag_le in Hx, Hy; try contradiction.
  - cbn [SFadd]. destruct sx, sy; exact I.
  - cbn [SFadd mag_le]. lia.
  - cbn [SFadd mag_le]. lia.
  - cbn [SFadd].
    set (ez := Z.min ex ey).
    pose proof (aligned_mantissa_bound mx ex ez k ltac:(lia) Hx) as Bx.
    pose proof (aligned_mantissa_bound my ey ez k ltac:(lia) Hy) as By.
    replace (k + 2) with (k + 1 + 1) by lia.
    apply binary_normalize_bound; try lia.
    replace (k + 1 - ez) with (k - ez + 1) by lia.
    rewrite two_pow_double by lia.
    pose proof (cond_Zopp_abs sx (Zpos (fst (shl_align mx ex ez)))).
    pose proof (cond_Zopp_abs sy (Zpos (fst (shl_align my ey ez)))).
    lia.
Qed.

Lemma sub_bound (x y : spec_float) (k : Z) :
  mag_le k x -> mag_le k y -> -1074 <= k -> k <= 972 ->
  mag_le (k + 2) (SFsub prec emax x y).
Proof.
  intros Hx Hy L U.
  destruct x as [sx | sx | | sx mx ex]; destruct y as [sy | sy | | sy my ey];
    unfold mag_le in Hx, Hy; try contradiction.
  - cbn [SFsub]. destruct sx, sy; exact I.
  - cbn [SFsub mag_le]. lia.
  - cbn [SFsub mag_le]. lia.
  - cbn [SFsub].
    set (ez := Z.min ex ey).
    pose proof (aligned_mantissa_bound mx ex ez k ltac:(lia) Hx) as Bx.
    pose proof (aligned_mantissa_bound my ey ez k ltac:(lia) Hy) as By.
    replace (k + 2) with (k + 1 + 1) by lia.
    apply binary_normalize_bound; try lia.
    replace (k + 1 - ez) with (k - ez + 1) by lia.
    rewrite two_pow_double by lia.
    pose proof (cond_Zopp_abs sx (Zpos (fst (shl_align mx ex ez)))).
    pose proof (cond_Zopp_abs sy (Zpos (fst (shl_align my ey ez)))).
    lia.
Qed.

(** The quotient mantissa of the division: non-negative, and of a
    magnitude one above the difference of the magnitudes at most. *)
Lemma div_core_bound (mx my : positive) (ex ey : Z) :
  let r := SFdiv_core_binary prec emax (Zpos mx) ex (Zpos my) ey in
  let q := fst (fst r) in
  let e' := snd (fst r) in
  0 <= q /\
  e' <= fexp prec emax (Zpos (digits2_pos mx) + ex - (Zpos (digits2_pos my) + ey)) /\
  Zdigits2 q + e'
    <= Z.max (Zpos (digits2_pos mx) + ex - (Zpos (digits2_pos my) + ey) + 1) e'.
Proof.
  unfold SFdiv_core_binary. cbn [Zdigits2].
  set (d1 := Zpos (digits2_pos mx)). set (d2 := Zpos (digits2_pos my)).
  set (e' := Z.min (fexp prec emax (d1 + ex - (d2 + ey))) (ex - ey)).
  set (sh := ex - ey - e').
  assert (Hsh : 0 <= sh) by (unfold sh, e'; lia).
  set (m' := match sh with
             | 0 => Zpos mx
             | Zpos _ => Z.shiftl (Zpos mx) sh
             | Zneg _ => 0
             end).
  assert (Hm' : m' = Zpos mx * 2 ^ sh).
  { unfold m'. destruct sh as [ | p | p] eqn:Es.
    - cbn. lia.
    - apply Z.shiftl_mul_pow2. lia.
    - lia. }
  pose proof (Z_div_mod m' (Zpos my) ltac:(lia)) as Hdiv.
  destruct (Z.div_eucl m' (Zpos my)) as [q r]. cbn [fst snd].
  destruct Hdiv as [Heq Hr].
  assert (Hq : 0 <= q) by nia.
  split; [ exact Hq | ]. split; [ unfold e'; lia | ].
  destruct (Z.eq_dec q 0) as [-> | Hq0]; [ cbn [Zdigits2]; lia | ].
  pose proof (digits2_pos_upper mx) as U1. fold d1 in U1.
  pose proof (digits2_pos_lower my) as L2. fold d2 in L2.
  assert (Hpow : 0 < 2 ^ sh) by (apply Z.pow_pos_nonneg; lia).
  assert (Hpow2 : 0 < 2 ^ (d2 - 1)) by (apply Z.pow_pos_nonneg; unfold d2; lia).
  assert (Hlt : q * 2 ^ (d2 - 1) < 2 ^ (d1 + sh)).
  { rewrite Z.pow_add_r by (unfold d1; lia). nia. }
  assert (Hpos : d2 - 1 < d1 + sh).
  { apply (proj2 (Z.pow_lt_mono_r_iff 2 (d2 - 1) (d1 + sh) ltac:(lia)
                    ltac:(unfold d1; lia))). nia. }
  assert (Hq2 : q < 2 ^ (d1 + sh - d2 + 1)).
  { replace (d1 + sh) with ((d1 + sh - d2 + 1) + (d2 - 1)) in Hlt by lia.
    rewrite Z.pow_add_r in Hlt by (unfold d2; lia). nia. }
  pose proof (Zdigits2_le q (d1 + sh - d2 + 1) Hq ltac:(lia) Hq2) as Hd.
  unfold sh in Hd. lia.
Qed.

Lemma div_bound (x : spec_float) (sy : bool) (my : positive) (ey k : Z) :
  mag_le k x ->
  let ky := Zpos (digits2_pos my) + ey in
  -1074 <= k - ky + 1 -> k - ky + 1 <= 1023 ->
  mag_le (k - ky + 2) (SFdiv prec emax x (S754_finite sy my ey)).
Proof.
  intros Hx ky L U.
  destruct x as [sx | sx | | sx mx ex]; unfold mag_le in Hx; try contradiction.
  - exact I.
  - cbn [SFdiv].
    pose proof (div_core_bound mx my ex ey) as H. cbv zeta in H.
    destruct (SFdiv_core_binary prec emax (Zpos mx) ex (Zpos my) ey) as [[q e'] lz].
    cbn [fst snd] in H. destruct H as (Hq & He & Hd). rewrite fexp_eq in He.
    replace (k - ky + 2) with (k - ky + 1 + 1) by lia.
    apply binary_round_aux_bound; unfold ky in *; lia.
Qed.

(** A canonical mantissa has at most 53 digits. *)
Lemma valid_digits (s : bool) (m : positive) (e : Z) :
  valid_binary prec emax (S754_finite s m e) = true -> Zpos (digits2_pos m) <= 53.
Proof.
  cbn [valid_binary]. unfold bounded, canonical_mantissa. rewrite fexp_eq.
  intros H. apply andb_prop in H as [H _]. apply Z.eqb_eq in H. lia.
Qed.

(** Among floats of one sign, the order bounds the exponent. *)
Lemma leb_upper_exponent (m mB : positive) (e eB : Z) :
  SFleb (S754_finite false m e) (S754_finite false mB eB) = true -> e <= eB.
Proof.
  unfold SFleb. cbn [SFcompare].
  destruct (Z.compare_spec e eB); [ lia | lia | discriminate ].
Qed.

Lemma leb_lower_exponent (m mL : positive) (e eL : Z) :
  SFleb (S754_finite true mL eL) (S754_finite true m e) = true -> e <= eL.
Proof.
  unfold SFleb. cbn [SFcompare].
  destruct (Z.compare_spec eL e); [ lia | discriminate | lia ].
Qed.

Lemma abs_bound (x : float) (k : Z) : mag_le k x -> mag_le k (SFabs x).
Proof. destruct x; unfold mag_le; cbn [SFabs]; auto. Qed.

(** A bounded float has a square: [** 2] does not overflow on it. *)
Lemma pow2_bound (x : float) (k : Z) :
  mag_le k x -> -1074 <= k + k -> k + k <= 973 ->
  exists y, pow2 x = Ok y /\ mag_le (k + k + 1) y.
Proof.
  intros Hx L U.
  destruct x as [sx | sx | | sx mx ex]; try contradiction.
  - exists (S754_zero false). split; [ reflexivity | exact I ].
  - pose proof (mul_bound (SFabs (S754_finite sx mx ex)) (SFabs (S754_finite sx mx ex))
                  k k (abs_bound _ k Hx) (abs_bound _ k Hx) L U) as H.
    unfold pow2. fold (mul (SFabs (S754_finite sx mx ex)) (SFabs (S754_finite sx mx ex))).
    change (SFmul prec emax) with mul in H.
    destruct (mul _ _) as [sz | sz | | sz mz ez] eqn:E;
      unfold mag_le in H; try contradiction; cbn [is_infinite].
    + eexists. split; [ reflexivity | exact I ].
    + eexists. split; [ reflexivity | exact H ].
Qed.

Ltac range_magnitude Hv Hlo Hhi :=
  match goal with
  | |- mag_le _ ?x =>
      destruct x as [s | s | | s m e];
      [ exact I
      | destruct s; [ vm_compute in Hlo; discriminate Hlo
                    | vm_compute in Hhi; discriminate Hhi ]
      | vm_compute in Hhi; discriminate Hhi
      | pose proof (valid_digits s m e Hv); destruct s ]
  end.

(** The floats of the two ranges of the search space are below [2 ^ 4]. *)
Lemma in_range_x1 (x : float) :
  in_range {| name := "x1"; parameter_type := FLOAT; lower := -5; upper := 10 |} x
    = true ->
  mag_le 4 x.
Proof.
  unfold in_range. cbn [lower upper]. intros H.
  apply andb_prop in H as [H Hhi]. apply andb_prop in H as [Hv Hlo].
  unfold leb in Hlo, Hhi.
  change (of_int (-5)) with (S754_finite true 5629499534213120 (-50)) in Hlo.
  change (of_int 10) with (S754_finite false 5629499534213120 (-49)) in Hhi.
  range_magnitude Hv Hlo Hhi.
  - apply leb_lower_exponent in Hlo. unfold mag_le. lia.
  - apply leb_upper_exponent in Hhi. unfold mag_le. lia.
Qed.

Lemma in_range_x2 (x : float) :
  in_range {| name := "x2"; parameter_type := FLOAT; lower := 0; upper := 15 |} x
    = true ->
  mag_le 4 x.
Proof.
  unfold in_range. cbn [lower upper]. intros H.
  apply andb_prop in H as [H Hhi]. apply andb_prop in H as [Hv Hlo].
  unfold leb in Hlo, Hhi.
  change (of_int 0) with (S754_zero false) in Hlo.
  change (of_int 15) with (S754_finite false 8444249301319680 (-49)) in Hhi.
  range_magnitude Hv Hlo Hhi.
  - discriminate Hlo.
  - apply leb_upper_exponent in Hhi. unfold mag_le. lia.
Qed.

End FloatBounds.

(** ** The evaluation function *)

Section ObjectiveFacts.

Context {py : PythonLibs}.

Lemma branin_returns (p : gmap string float) (args : list (option float))
    (rng : rng_state) (x1 x2 y : float) :
  p !! "x1" = Some x1 -> p !! "x2" = Some x2 ->
  branin_noiseless x1 x2 = Ok y ->
  branin p args rng =
    (Ok {[ "branin" := ((y + noise rng)%py, zero) ]},
     snd (normalvariate (of_int 0) lit_0_1 rng)).
Proof.
  intros H1 H2 Hy. unfold branin, getitem. rewrite H1, H2. simpl.
  rewrite Hy. reflexivity.
Qed.

Lemma branin_raises (p : gmap string float) (args : list (option float))
    (rng : rng_state) (x1 x2 : float) (e : exn) :
  p !! "x1" = Some x1 -> p !! "x2" = Some x2 ->
  branin_noiseless x1 x2 = Raised e ->
  branin p args rng = (Raised e, rng).
Proof.
  intros H1 H2 Hy. unfold branin, getitem. rewrite H1, H2. simpl.
  rewrite Hy. reflexivity.
Qed.

(** The only exception of the arithmetic is the [OverflowError] of a
    [** 2]. *)
Lemma branin_noiseless_raises (x1 x2 : float) (e : exn) :
  branin_noiseless x1 x2 = Raised e -> e = OverflowError.
Proof.
  unfold branin_noiseless. rewrite pow2_np_pi. cbn [bind].
  assert (Hpow : forall v e', pow2 v = Raised e' -> e' = OverflowError).
  { intros v e'. unfold pow2. destruct v; try discriminate.
    destruct (is_infinite _); [ | discriminate ]. congruence. }
  destruct (pow2 x1) as [s | e1] eqn:E1; cbn [bind].
  - match goal with |- context [pow2 ?z] => destruct (pow2 z) as [y | e2] eqn:E2 end;
      cbn [bind]; [ discriminate | ].
    intros H. injection H as <-. eauto.
  - intros H. injection H as <-. eauto.
Qed.

(** A returned result holds the single metric ["branin"]. *)
Lemma branin_metrics (p : gmap string float) (args : list (option float))
    (rng rng' : rng_state) (metrics : gmap string (float * float)) :
  branin p args rng = (Ok metrics, rng') ->
  exists y, metrics = {[ "branin" := (y, zero) ]}.
Proof.
  unfold branin. destruct (bind _ _) as [y | e]; intros H.
  - injection H as <- _. eauto.
  - discriminate H.
Qed.

(** With [x1] a NaN the arithmetic yields NaN; with [x2] a NaN it does
    so once [x1 ** 2] has not overflowed. *)
Lemma branin_noiseless_nan (x1 x2 : float) :
  is_nan x1 || is_nan x2 = true ->
  pow2 x1 <> Raised OverflowError ->
  branin_noiseless x1 x2 = Ok nan.
Proof.
  intros Hnan Hov. unfold branin_noiseless. rewrite pow2_np_pi. cbn [bind].
  destruct (is_nan x1) eqn:N1.
  - apply is_nan_eq in N1. subst x1. cbn [pow2 nan bind].
    rewrite mul_nan_r, sub_nan_r. reflexivity.
  - simpl in Hnan. apply is_nan_eq in Hnan. subst x2.
    destruct (pow2 x1) as [s | e] eqn:E1.
    + reflexivity.
    + exfalso. apply Hov. f_equal.
      unfold pow2 in E1. destruct x1; try discriminate.
      destruct (is_infinite _); [ congruence | discriminate ].
Qed.

(** Below [2 ^ 4] in both parameters nothing overflows: the arithmetic
    returns. *)
Lemma branin_noiseless_bounded (x1 x2 : float) :
  mag_le 4 x1 -> mag_le 4 x2 -> exists y, branin_noiseless x1 x2 = Ok y.
Proof.
  intros H1 H2. unfold branin_noiseless. rewrite pow2_np_pi. cbn [bind].
  set (c := (lit_5_1 / _)%py).
  assert (Hc : mag_le (-2) c) by (vm_compute; discriminate).
  assert (H5 : mag_le 3 (of_int 5)) by (vm_compute; discriminate).
  assert (H6 : mag_le 3 (of_int 6)) by (vm_compute; discriminate).
  destruct (pow2_bound x1 4 H1 ltac:(lia) ltac:(lia)) as (s & Es & Hs).
  rewrite Es. cbn [bind].
  assert (Hz : mag_le 14 (x2 - c * s + of_int 5 * x1 / np_pi - of_int 6)%py).
  { pose proof (mul_bound c s (-2) 9 Hc Hs ltac:(lia) ltac:(lia)) as Hcs.
    pose proof (sub_bound x2 (c * s)%py 8
                  (mag_le_weaken 4 8 x2 ltac:(lia) H2)
                  (mag_le_weaken (-2 + 9 + 1) 8 _ ltac:(lia) Hcs)
                  ltac:(lia) ltac:(lia)) as A.
    pose proof (mul_bound (of_int 5) x1 3 4 H5 H1 ltac:(lia) ltac:(lia)) as B.
    pose proof (div_bound (of_int 5 * x1)%py false 7074237752028440 (-51) 8 B) as C.
    cbv zeta in C.
    change (Z.pos (digits2_pos 7074237752028440) + -51)%Z with 2%Z in C.
    specialize (C ltac:(lia) ltac:(lia)).
    pose proof (add_bound _ _ 10 A (mag_le_weaken (8 - 2 + 2) 10 _ ltac:(lia) C)
                  ltac:(lia) ltac:(lia)) as D.
    pose proof (sub_bound _ (of_int 6) 12 D
                  (mag_le_weaken 3 12 _ ltac:(lia) H6) ltac:(lia) ltac:(lia)) as E.
    exact E. }
  destruct (pow2_bound _ 14 Hz ltac:(lia) ltac:(lia)) as (y & Ey & _).
  rewrite Ey. cbn [bind]. eexists. reflexivity.
Qed.

(** A parameterization of the search space holds [x1] and [x2], both
    below [2 ^ 4]. *)
Lemma in_search_space_bounded (p : gmap string float) :
  in_search_space search_space p = true ->
  exists x1 x2, p !! "x1" = Some x1 /\ p !! "x2" = Some x2 /\
                mag_le 4 x1 /\ mag_le 4 x2.
Proof.
  unfold in_search_space, search_space. cbn [parameters forallb name].
  destruct (p !! "x1") as [x1 | ]; [ | discriminate ].
  destruct (p !! "x2") as [x2 | ]; [ | rewrite andb_false_r; discriminate ].
  rewrite andb_true_r. intros H. apply andb_prop in H as [R1 R2].
  exists x1, x2. split; [ reflexivity | ]. split; [ reflexivity | ].
  split; [ apply in_range_x1, R1 | apply in_range_x2, R2 ].
Qed.

Lemma branin_in_search_space (p : gmap string float)
    (args : list (option float)) (rng : rng_state) :
  in_search_space search_space p = true ->
  exists y : float,
    branin p args rng =
      (Ok {[ "branin" := ((y + noise rng)%py, zero) ]},
       snd (normalvariate (of_int 0) lit_0_1 rng)).
Proof.
  intros Hp.
  destruct (in_search_space_bounded p Hp) as (x1 & x2 & H1 & H2 & B1 & B2).
  destruct (branin_noiseless_bounded x1 x2 B1 B2) as [y Hy].
  exists y. apply (branin_returns p args rng x1 x2 y H1 H2 Hy).
Qed.

End ObjectiveFacts.

Section ObjectiveClaims.

Context {py : PythonLibs}.

(** C5.  Apart from its noise term [branin] is a function of the
    parameterization: two evaluations of the same parameterization whose
    noise source gives them the same draw report the same metrics,
    whatever extra arguments they were called with.  The noise source is
    the state of Python's random generator, which is all the second
    evaluation needs to share with the first. *)
Theorem branin_deterministic_apart_from_noise
    (p : gmap string float) (args1 args2 : list (option float))
    (rng1 rng2 : rng_state) :
  noise rng1 = noise rng2 ->
  fst (branin p args1 rng1) = fst (branin p args2 rng2) /\
  (rng1 = rng2 -> branin p args1 rng1 = branin p args2 rng2).
Proof.
  intros Hdraw. split.
  - unfold branin. destruct (bind _ _) as [y | e]; cbn [fst].
    + rewrite Hdraw. reflexivity.
    + reflexivity.
  - intros ->. reflexivity.
Qed.

(** C6, as amended.  A NaN among the parameters raises nothing: with
    [x1] or [x2] a NaN (and [x1 ** 2] not overflowing) [branin] returns
    its usual dictionary, the NaN carried into the mean and the standard
    error 0.0. *)
Theorem branin_propagates_nan
    (p : gmap string float) (args : list (option float)) (rng : rng_state)
    (x1 x2 : float) :
  p !! "x1" = Some x1 -> p !! "x2" = Some x2 ->
  is_nan x1 || is_nan x2 = true ->
  pow2 x1 <> Raised OverflowError ->
  branin p args rng =
    (Ok {[ "branin" := (nan, zero) ]},
     snd (normalvariate (of_int 0) lit_0_1 rng)).
Proof.
  intros H1 H2 Hnan Hov.
  rewrite (branin_returns p args rng x1 x2 nan H1 H2
             (branin_noiseless_nan x1 x2 Hnan Hov)).
  rewrite add_nan_l. reflexivity.
Qed.

(** C10.  On every parameterization of the search space [branin]
    returns, and what it returns is the one metric ["branin"] with the
    noisy mean and a standard error of exactly 0.0.  On any
    parameterization at all, a result it returns has the standard error
    0.0, which passes the test [0.0 <= sem]. *)
Theorem branin_standard_error_is_zero
    (p : gmap string float) (args : list (option float)) (rng : rng_state) :
  (in_search_space search_space p = true ->
   exists y : float,
     branin p args rng =
       (Ok {[ "branin" := ((y + noise rng)%py, zero) ]},
        snd (normalvariate (of_int 0) lit_0_1 rng))) /\
  (forall metrics rng' m s,
      branin p args rng = (Ok metrics, rng') ->
      metrics !! "branin" = Some (m, s) -> s = zero /\ leb zero s = true).
Proof.
  split.
  - apply branin_in_search_space.
  - intros metrics rng' m s Hb Hm.
    destruct (branin_metrics p args rng rng' metrics Hb) as [y ->].
    rewrite lookup_singleton_eq in Hm. injection Hm as _ <-.
    split; reflexivity.
Qed.

(** X1.  What [branin] can raise: [KeyError] for a missing ["x1"], then
    for a missing ["x2"], and with both present nothing but the
    [OverflowError] of a [** 2]; the random generator is then left as it
    was. *)
Theorem branin_exceptions
    (p : gmap string float) (args : list (option float)) (rng : rng_state) :
  (p !! "x1" = None -> branin p args rng = (Raised (KeyError "x1"), rng)) /\
  (is_Some (p !! "x1") -> p !! "x2" = None ->
   branin p args rng = (Raised (KeyError "x2"), rng)) /\
  (forall e rng', is_Some (p !! "x1") -> is_Some (p !! "x2") ->
                  branin p args rng = (Raised e, rng') ->
                  e = OverflowError /\ rng' = rng).
Proof.
  split; [ | split ].
  - intros H. unfold branin, getitem. rewrite H. reflexivity.
  - intros [x1 H1] H2. unfold branin, getitem. rewrite H1, H2. reflexivity.
  - intros e rng' [x1 H1] [x2 H2] H.
    destruct (branin_noiseless x1 x2) as [y | e'] eqn:E.
    + rewrite (branin_returns p args rng x1 x2 y H1 H2 E) in H. discriminate H.
    + rewrite (branin_raises p args rng x1 x2 e' H1 H2 E) in H.
      injection H as <- <-. split; [ | reflexivity ].
      apply (branin_noiseless_raises x1 x2 e' E).
Qed.

End ObjectiveClaims.

(** C6, as stated, fails: a parameterization whose [x1] is a NaN is
    answered with a result, not with an error, whatever the libraries. *)
Lemma branin_nan_returns_silently :
  exists p : gmap string float,
    p !! "x1" = Some nan /\
    forall (py : PythonLibs) (args : list (option float)) (rng : rng_state),
      fst (branin p args rng) = Ok {[ "branin" := (nan, zero) ]}.
Proof.
  exists {[ "x1" := nan; "x2" := zero ]}. split.
  - reflexivity.
  - intros py args rng.
    rewrite (branin_returns _ args rng nan zero nan); try reflexivity.
Qed.

Lemma branin_deterministic_apart_from_noise_witness :
  noise (py := Stub.python) 0 = noise (py := Stub.python) 1 /\
  fst (branin (py := Stub.python) (arm_parameters (Stub.point 0 3)) [] 0) =
  fst (branin (py := Stub.python) (arm_parameters (Stub.point 0 3)) [None] 1).
Proof.
  split.
  - reflexivity.
  - apply (branin_deterministic_apart_from_noise (py := Stub.python)).
    reflexivity.
Defined.

Lemma branin_propagates_nan_witness :
  fst (branin (py := Stub.python) {[ "x1" := nan; "x2" := zero ]} [] 0) =
  Ok {[ "branin" := (nan, zero) ]}.
Proof.
  rewrite (branin_propagates_nan (py := Stub.python) _ [] 0 nan zero);
    [ reflexivity | reflexivity | reflexivity | reflexivity
    | intros H; inversion H ].
Defined.

Lemma branin_standard_error_is_zero_witness :
  in_search_space search_space (arm_parameters (Stub.point 0 3)) = true /\
  exists y : float,
    branin (py := Stub.python) (arm_parameters (Stub.point 0 3)) [] 0 =
      (Ok {[ "branin" := ((y + noise (py := Stub.python) 0)%py, zero) ]}, 1).
Proof.
  assert (H : in_search_space search_space (arm_parameters (Stub.point 0 3)) = true).
  { vm_compute. reflexivity. }
  split; [ exact H | ].
  exact (proj1 (branin_standard_error_is_zero (py := Stub.python)
                  (arm_parameters (Stub.point 0 3)) [] 0) H).
Defined.

(** ** The model factory *)

Section ModelClaims.

Context {gp : GPLibs}.

(** The factory on non-empty [Xs] and [Ys]: a model on the first
    entries, fitted. *)
Lemma factory_on_first_outcome (X0 Y0 : Tensor) (Xs Ys : list Tensor)
    (kwargs : gmap string PyObject) :
  _get_and_fit_custom_model (X0 :: Xs) (Y0 :: Ys) kwargs =
    let* Y := view Y0 in
    let* d := shape_last X0 in
    let* fitted := fit_model X0 Y (initial_state d) in
    Ok {| train_X := X0; train_Y := Y; ard_num_dims := d; state := fitted |}.
Proof.
  unfold _get_and_fit_custom_model, SimpleCustomGP_init. cbn [list_getitem lookup].
  simpl. destruct (view Y0) as [Y | e]; [ | reflexivity ]. simpl.
  destruct (shape_last X0) as [d | e]; reflexivity.
Qed.

Lemma view_returns (t t' : Tensor) : view t = Ok t' -> t' = view_flat t.
Proof. unfold view. destruct (can_view t); [ congruence | discriminate ]. Qed.

(** C4, as amended.  Whatever the number of outcomes in [Xs] and [Ys],
    a model the factory returns is built from the first outcome's data
    and reports one output. *)
Theorem factory_model_reports_one_outcome (Xs Ys : list Tensor)
    (kwargs : gmap string PyObject) (model : SimpleCustomGP) :
  _get_and_fit_custom_model Xs Ys kwargs = Ok model ->
  num_outputs model = 1 /\
  Xs !! 0 = Some (train_X model) /\
  view_flat <$> Ys !! 0 = Some (train_Y model) /\
  shape_last (train_X model) = Ok (ard_num_dims model).
Proof.
  intros H. split; [ reflexivity | ].
  destruct Xs as [ | X0 Xs]; [ discriminate H | ].
  destruct Ys as [ | Y0 Ys]; [ discriminate H | ].
  rewrite factory_on_first_outcome in H.
  destruct (view Y0) as [Y | e] eqn:Ev; [ | discriminate H ].
  apply view_returns in Ev as ->. cbn [bind] in H.
  destruct (shape_last X0) as [d | e] eqn:Ed; [ | discriminate H ].
  cbn [bind] in H.
  destruct (fit_model X0 (view_flat Y0) (initial_state d)) as [st | e];
    [ | discriminate H ].
  injection H as <-. cbn. rewrite Ed. auto.
Qed.

(** C9.  The factory reads [Xs[0]] and [Ys[0]] and nothing else: the
    other outcomes and every keyword argument ([Yvars], [state_dict],
    any option) leave its result unchanged; with an empty [Xs] or [Ys]
    the [IndexError] is the same whatever the keywords. *)
Theorem factory_reads_first_outcome_only (X0 Y0 : Tensor)
    (Xs Xs' Ys Ys' XS YS : list Tensor) (kwargs kwargs' : gmap string PyObject) :
  _get_and_fit_custom_model (X0 :: Xs) (Y0 :: Ys) kwargs =
  _get_and_fit_custom_model (X0 :: Xs') (Y0 :: Ys') kwargs' /\
  _get_and_fit_custom_model XS YS kwargs =
  _get_and_fit_custom_model XS YS kwargs'.
Proof.
  split.
  - rewrite !factory_on_first_outcome. reflexivity.
  - reflexivity.
Qed.

(** X5.  The factory handles no exception and raises none of its own
    beyond those of its own expressions: when it raises, either an
    [IndexError] comes from an empty [Xs], an empty [Ys] or a
    0-dimensional [Xs[0]], or a [RuntimeError] from [Ys[0].view(-1)] on
    targets whose strides allow no flat view, or the exception is the
    one [fit_model] raised on the model of the first outcome, whatever
    the number of observations. *)
Theorem factory_raises (Xs Ys : list Tensor) (kwargs : gmap string PyObject)
    (e : exn) :
  _get_and_fit_custom_model Xs Ys kwargs = Raised e ->
  (e = IndexError /\
   (Xs = [] \/ Ys = [] \/ exists X0, Xs !! 0 = Some X0 /\ shape X0 = [])) \/
  (e = OtherError "RuntimeError" /\
   exists X0 Y0, Xs !! 0 = Some X0 /\ Ys !! 0 = Some Y0 /\ can_view Y0 = false) \/
  (exists X0 Y0 d,
      Xs !! 0 = Some X0 /\ Ys !! 0 = Some Y0 /\ can_view Y0 = true /\
      shape_last X0 = Ok d /\
      fit_model X0 (view_flat Y0) (initial_state d) = Raised e).
Proof.
  intros H.
  destruct Xs as [ | X0 Xs].
  { injection H as <-. left. auto. }
  destruct Ys as [ | Y0 Ys].
  { injection H as <-. left. auto. }
  rewrite factory_on_first_outcome in H. unfold view in H.
  destruct (can_view Y0) eqn:Ev; cbn [bind] in H.
  2:{ injection H as <-. right. left. split; [ reflexivity | ].
      exists X0, Y0. auto. }
  destruct (shape_last X0) as [d | e'] eqn:Ed; cbn [bind] in H.
  - destruct (fit_model X0 (view_flat Y0) (initial_state d)) as [st | e'] eqn:Ef;
      [ discriminate H | ].
    injection H as <-. right. right. exists X0, Y0, d. auto.
  - injection H as <-. unfold shape_last in Ed.
    destruct (last (shape X0)) as [d | ] eqn:El; [ discriminate Ed | ].
    injection Ed as <-. left. split; [ reflexivity | ].
    right. right. exists X0. split; [ reflexivity | ].
    apply last_None, El.
Qed.

End ModelClaims.

(** C4, as stated, fails: called with two outcomes, the factory cannot
    return a model that reports two outputs, whatever the libraries; on
    the stand-in libraries it returns one that reports 1. *)
Lemma factory_two_outcomes_reports_one :
  length [Stub.X_train; Stub.X_train] = 2 /\
  length [Stub.Y_train; Stub.Y_other] = 2 /\
  (forall (gp : GPLibs) (kwargs : gmap string PyObject) (model : SimpleCustomGP),
      _get_and_fit_custom_model [Stub.X_train; Stub.X_train]
        [Stub.Y_train; Stub.Y_other] kwargs = Ok model ->
      num_outputs model <> length [Stub.X_train; Stub.X_train]) /\
  (exists model : SimpleCustomGP (gp := Stub.gpytorch),
      _get_and_fit_custom_model [Stub.X_train; Stub.X_train]
        [Stub.Y_train; Stub.Y_other] ∅ = Ok model /\
      num_outputs model = 1).
Proof.
  split; [ reflexivity | ]. split; [ reflexivity | ]. split.
  - intros gp kwargs model _. cbn. discriminate.
  - eexists. split; reflexivity.
Qed.

Lemma factory_model_reports_one_outcome_witness :
  exists model : SimpleCustomGP (gp := Stub.gpytorch),
    _get_and_fit_custom_model [Stub.X_train] [Stub.Y_train] ∅ = Ok model /\
    num_outputs model = 1 /\
    train_X model = Stub.X_train /\
    train_Y model = view_flat Stub.Y_train.
Proof.
  eexists. split; [ reflexivity | ].
  destruct (factory_model_reports_one_outcome (gp := Stub.gpytorch)
              [Stub.X_train] [Stub.Y_train] ∅ _ eq_refl) as (H1 & H2 & H3 & _).
  split; [ exact H1 | ]. split; reflexivity.
Defined.

(** ** The driving cells *)

Section ExperimentFacts.

Context {py : PythonLibs}.

Lemma arms_of_new_trial (e : SimpleExperiment) (generator_run : list Arm) :
  arms_of (fst (new_trial e generator_run)) = arms_of e ++ generator_run.
Proof.
  unfold arms_of, new_trial. cbn [fst trials].
  rewrite map_app, concat_app. cbn. rewrite app_nil_r. reflexivity.
Qed.

Lemma rows_of_branin (t : nat) (a : Arm) (y : float) :
  length (rows_of t a {[ "branin" := (y, zero) ]}) = 1.
Proof. unfold rows_of. rewrite map_to_list_singleton. reflexivity. Qed.

(** Evaluating the arms of a trial gives one row per arm, in order. *)
Lemma eval_arms_rows (t : nat) (arms : list Arm) :
  forall (rng rng' : rng_state) (data : list Observation),
    eval_arms t arms rng = (Ok data, rng') -> rows_for t arms data.
Proof.
  induction arms as [ | a rest IH]; intros rng rng' data H; cbn [eval_arms] in H.
  - injection H as <- _. split; [ reflexivity | constructor ].
  - destruct (branin (arm_parameters a) [None] rng) as [[metrics | e] rng1] eqn:Eb;
      [ | discriminate H ].
    destruct (eval_arms t rest rng1) as [[d | e] rng2] eqn:Er; [ | discriminate H ].
    injection H as <- _. apply branin_metrics in Eb as [y ->].
    destruct (IH rng1 rng2 d Er) as [Hm Hf].
    unfold rows_of. rewrite map_to_list_singleton. cbn [map app fst snd].
    split.
    + cbn [map obs_trial obs_arm]. rewrite Hm. reflexivity.
    + constructor; [ split; reflexivity | exact Hf ].
Qed.

Lemma rows_for_length (i : nat) (arms : list Arm) (rows : list Observation) :
  rows_for i arms rows -> length rows = length arms.
Proof.
  intros [H _]. apply (f_equal (@length _)) in H.
  rewrite !length_map in H. exact H.
Qed.

Lemma rows_for_arms (i : nat) (arms : list Arm) (rows : list Observation) :
  rows_for i arms rows -> map obs_arm rows = arms.
Proof.
  intros [H _]. apply (f_equal (map snd)) in H.
  rewrite !map_map in H. cbn [snd] in H. rewrite map_id in H. exact H.
Qed.

Lemma eval_arms_returns (t : nat) (arms : list Arm) :
  forall rng : rng_state,
    forallb arm_in_search_space arms = true ->
    exists data rng', eval_arms t arms rng = (Ok data, rng').
Proof.
  induction arms as [ | a rest IH]; intros rng H.
  - exists [], rng. reflexivity.
  - cbn [forallb] in H. apply andb_prop in H as [Ha Hrest].
    destruct (branin_in_search_space (arm_parameters a) [None] rng Ha) as [y Hy].
    cbn [eval_arms]. rewrite Hy.
    destruct (IH (snd (normalvariate (of_int 0) lit_0_1 rng)) Hrest)
      as (data & rng' & E).
    rewrite E. eexists _, _. reflexivity.
Qed.

(** *** Well-recorded experiments *)

Lemma well_recorded_index (e : SimpleExperiment) (i : nat) (t : Trial) :
  well_recorded e -> trials e !! i = Some t -> trial_index t = i.
Proof.
  intros [Hi _] Ht.
  assert (H : map trial_index (trials e) !! i = Some (trial_index t)).
  { rewrite list_lookup_fmap, Ht. reflexivity. }
  rewrite Hi in H. apply lookup_seq in H as [-> _]. reflexivity.
Qed.

Lemma well_recorded_lookup (e : SimpleExperiment) (t : Trial) :
  well_recorded e -> t ∈ trials e -> trials e !! trial_index t = Some t.
Proof.
  intros W Ht. apply list_elem_of_lookup in Ht as [i Hi].
  rewrite (well_recorded_index e i t W Hi). exact Hi.
Qed.

Lemma well_recorded_NoDup (e : SimpleExperiment) :
  well_recorded e -> NoDup (map trial_index (trials e)).
Proof. intros [Hi _]. rewrite Hi. apply NoDup_seq. Qed.

Lemma well_recorded_fresh (e : SimpleExperiment) :
  well_recorded e -> lookup_data_for_trial e (length (trials e)) = [].
Proof.
  intros [_ Hd]. unfold lookup_data_for_trial.
  destruct (data_by_trial e !! length (trials e)) as [rows | ] eqn:E;
    [ | reflexivity ].
  destruct (Hd _ _ E) as (t & Ht & _). apply lookup_lt_Some in Ht. lia.
Qed.

Lemma lookup_data_rows (e : SimpleExperiment) (i : nat) (t : Trial) :
  well_recorded e -> trials e !! i = Some t ->
  rows_for i (trial_arms t) (lookup_data_for_trial e i) \/
  lookup_data_for_trial e i = [].
Proof.
  intros [_ Hd] Ht. unfold lookup_data_for_trial.
  destruct (data_by_trial e !! i) as [rows | ] eqn:E; [ | right; reflexivity ].
  destruct (Hd _ _ E) as (t' & Ht' & Hr). left. cbn [default].
  rewrite Ht in Ht'. injection Ht' as <-. exact Hr.
Qed.

Lemma well_recorded_new_experiment : well_recorded new_experiment.
Proof.
  split; [ reflexivity | ]. intros i rows H. cbn in H.
  rewrite lookup_empty in H. discriminate H.
Qed.

Lemma well_recorded_new_trial (e : SimpleExperiment) (generator_run : list Arm) :
  well_recorded e -> well_recorded (fst (new_trial e generator_run)).
Proof.
  intros [Hi Hd]. unfold new_trial. cbn [fst]. split; cbn [trials data_by_trial].
  - rewrite map_app, length_app, Hi. cbn [map length trial_index].
    rewrite Nat.add_1_r, seq_S. reflexivity.
  - intros i rows H. destruct (Hd _ _ H) as (t & Ht & Hr).
    exists t. split; [ | exact Hr ]. apply lookup_app_l_Some. exact Ht.
Qed.

Lemma observations_new_trial (e : SimpleExperiment) (generator_run : list Arm) :
  well_recorded e ->
  observations (fst (new_trial e generator_run)) = observations e.
Proof.
  intros W. unfold observations, new_trial. cbn [fst trials].
  rewrite flat_map_app. cbn [flat_map trial_index].
  change (lookup_data_for_trial _ (length (trials e)))
    with (lookup_data_for_trial e (length (trials e))).
  rewrite (well_recorded_fresh e W), !app_nil_r. reflexivity.
Qed.

End ExperimentFacts.

(** *** What [exp.eval()] returns and records *)

Section EvalFacts.

Context {py : PythonLibs}.

Lemma records_more_refl (e : SimpleExperiment) : records_more e e.
Proof. unfold records_more. auto 10. Qed.

Lemma records_more_trans (e1 e2 e3 : SimpleExperiment) :
  records_more e1 e2 -> records_more e2 e3 -> records_more e1 e3.
Proof.
  intros (A1 & A2 & A3 & A4 & A5 & A6) (B1 & B2 & B3 & B4 & B5 & B6).
  unfold records_more. repeat split; try congruence.
  intros i o rows H. apply B6, A6, H.
Qed.

Lemma lookup_attach_data (e : SimpleExperiment) (i : nat) (rows : list Observation) :
  lookup_data_for_trial (attach_data e i rows) i = rows.
Proof.
  unfold lookup_data_for_trial, attach_data. cbn [data_by_trial].
  rewrite lookup_insert_eq. reflexivity.
Qed.

(** One trial: the experiment stays well recorded, only the rows of this
    trial may be new, and returned rows are the trial's recorded rows. *)
Lemma eval_trial_spec (e e' : SimpleExperiment) (t : Trial)
    (rng rng' : rng_state) (r : result (list Observation)) :
  well_recorded e -> trials e !! trial_index t = Some t ->
  eval_trial e t rng = (r, e', rng') ->
  well_recorded e' /\ records_more e e' /\
  (forall i, i <> trial_index t -> data_by_trial e' !! i = data_by_trial e !! i) /\
  (forall rows, r = Ok rows ->
                lookup_data_for_trial e' (trial_index t) = rows /\
                rows_for (trial_index t) (trial_arms t) rows).
Proof.
  intros W Ht H. unfold eval_trial in H.
  destruct (lookup_data_for_trial e (trial_index t)) as [ | o cached] eqn:El.
  - destruct (trial_arms t) as [ | a arms] eqn:Ea.
    + injection H as <- <- <-.
      split; [ exact W | ]. split; [ apply records_more_refl | ].
      split; [ reflexivity | ]. intros rows Hr. injection Hr as <-.
      split; [ exact El | ]. split; [ reflexivity | constructor ].
    + destruct (eval_arms (trial_index t) (a :: arms) rng) as [[rows | ex] rng1] eqn:Ee.
      * injection H as <- <- <-.
        pose proof (eval_arms_rows _ _ _ _ _ Ee) as Hrows.
        split; [ | split; [ | split ] ].
        -- destruct W as [Wi Wd]. split; [ exact Wi | ].
           intros i rows0 Hi. cbn [attach_data data_by_trial trials] in Hi |- *.
           destruct (decide (i = trial_index t)) as [-> | Hne].
           ++ rewrite lookup_insert_eq in Hi. injection Hi as <-.
              exists t. rewrite Ea. auto.
           ++ rewrite lookup_insert_ne in Hi by congruence. apply Wd, Hi.
        -- unfold records_more. cbn [attach_data exp_name exp_search_space
                                       objective_name minimize trials].
           repeat split. intros i o rows0 Hi.
           unfold lookup_data_for_trial in *. cbn [attach_data data_by_trial].
           destruct (decide (i = trial_index t)) as [-> | Hne].
           ++ rewrite El in Hi. discriminate Hi.
           ++ rewrite lookup_insert_ne by congruence. exact Hi.
        -- intros i Hne. cbn [attach_data data_by_trial].
           apply lookup_insert_ne. congruence.
        -- intros rows0 Hr. injection Hr as <-.
           split; [ apply lookup_attach_data | exact Hrows ].
      * injection H as <- <- <-.
        split; [ exact W | ]. split; [ apply records_more_refl | ].
        split; [ reflexivity | ]. intros rows Hr. discriminate Hr.
  - injection H as <- <- <-.
    split; [ exact W | ]. split; [ apply records_more_refl | ].
    split; [ reflexivity | ]. intros rows Hr. injection Hr as <-.
    split; [ exact El | ].
    destruct (lookup_data_rows e _ t W Ht) as [Hrows | Hnil].
    + rewrite El in Hrows. exact Hrows.
    + rewrite El in Hnil. discriminate Hnil.
Qed.

(** The trials of a list in turn. *)
Lemma eval_trials_spec (ts : list Trial) :
  forall (e e' : SimpleExperiment) (rng rng' : rng_state)
         (r : result (list Observation)),
    well_recorded e ->
    Forall (fun t => trials e !! trial_index t = Some t) ts ->
    NoDup (map trial_index ts) ->
    eval_trials e ts rng = (r, e', rng') ->
    well_recorded e' /\ records_more e e' /\
    (forall i, i ∉ map trial_index ts ->
               data_by_trial e' !! i = data_by_trial e !! i) /\
    (forall data, r = Ok data ->
       data = flat_map (fun t => lookup_data_for_trial e' (trial_index t)) ts /\
       Forall (fun t => rows_for (trial_index t) (trial_arms t)
                          (lookup_data_for_trial e' (trial_index t))) ts).
Proof.
  induction ts as [ | t rest IH]; intros e e' rng rng' r W Hts Hnd H.
  - cbn [eval_trials] in H. injection H as <- <- <-.
    split; [ exact W | ]. split; [ apply records_more_refl | ].
    split; [ reflexivity | ]. intros data Hr. injection Hr as <-.
    split; [ reflexivity | constructor ].
  - cbn [eval_trials] in H. cbn [map] in Hnd.
    apply NoDup_cons in Hnd as [Hfresh Hnd].
    apply Forall_cons in Hts as [Ht Hts].
    destruct (eval_trial e t rng) as [[r1 e1] rng1] eqn:E1.
    destruct (eval_trial_spec _ _ _ _ _ _ W Ht E1) as (W1 & M1 & F1 & R1).
    assert (Hts1 : Forall (fun t0 => trials e1 !! trial_index t0 = Some t0) rest).
    { destruct M1 as (_ & _ & _ & _ & -> & _). exact Hts. }
    destruct r1 as [rows | ex].
    + destruct (eval_trials e1 rest rng1) as [[r2 e2] rng2] eqn:E2.
      destruct (IH _ _ _ _ _ W1 Hts1 Hnd E2) as (W2 & M2 & F2 & R2).
      assert (Hframe : forall i, i ∉ map trial_index (t :: rest) ->
                                 data_by_trial e2 !! i = data_by_trial e !! i).
      { intros i Hi. cbn [map] in Hi. apply not_elem_of_cons in Hi as [Hne Hi].
        rewrite (F2 i Hi). apply F1, Hne. }
      assert (Hhead : lookup_data_for_trial e2 (trial_index t) = rows).
      { destruct (R1 rows eq_refl) as [<- _]. unfold lookup_data_for_trial.
        rewrite (F2 _ Hfresh). reflexivity. }
      destruct r2 as [data | ex]; injection H as <- <- <-.
      * split; [ exact W2 | ].
        split; [ apply (records_more_trans _ _ _ M1 M2) | ].
        split; [ exact Hframe | ]. intros data0 Hr. injection Hr as <-.
        destruct (R2 data eq_refl) as [Hd Hf]. cbn [flat_map].
        rewrite Hhead, <- Hd. split; [ reflexivity | ].
        constructor; [ | exact Hf ]. rewrite Hhead. apply (R1 rows eq_refl).
      * split; [ exact W2 | ].
        split; [ apply (records_more_trans _ _ _ M1 M2) | ].
        split; [ exact Hframe | ]. intros data0 Hr. discriminate Hr.
    + injection H as <- <- <-.
      split; [ exact W1 | ]. split; [ exact M1 | ]. split.
      * intros i Hi. cbn [map] in Hi. apply not_elem_of_cons in Hi as [Hne _].
        apply F1, Hne.
      * intros data0 Hr. discriminate Hr.
Qed.

Lemma rows_for_flat_map (f : nat -> list Observation) (ts : list Trial) :
  Forall (fun t => rows_for (trial_index t) (trial_arms t) (f (trial_index t))) ts ->
  map (fun o => (obs_trial o, obs_arm o)) (flat_map (fun t => f (trial_index t)) ts)
    = flat_map (fun t => map (pair (trial_index t)) (trial_arms t)) ts /\
  Forall branin_row (flat_map (fun t => f (trial_index t)) ts) /\
  map obs_arm (flat_map (fun t => f (trial_index t)) ts) = concat (map trial_arms ts).
Proof.
  induction 1 as [ | t rest Ht _ (IH1 & IH2 & IH3)]; cbn [flat_map map concat].
  - split; [ reflexivity | ]. split; [ constructor | reflexivity ].
  - rewrite !map_app, IH1, IH3, (rows_for_arms _ _ _ Ht).
    destruct Ht as [Hm Hf]. rewrite Hm.
    split; [ reflexivity | ]. split; [ | reflexivity ].
    apply Forall_app. split; assumption.
Qed.

(** [exp.eval()] on a well-recorded experiment: whatever the outcome,
    the experiment stays well recorded and keeps its rows; the rows
    returned are the rows it holds afterwards, those of every trial. *)
Lemma eval_spec (e e' : SimpleExperiment) (rng rng' : rng_state)
    (r : result (list Observation)) :
  well_recorded e -> eval e rng = (r, e', rng') ->
  well_recorded e' /\ records_more e e' /\
  (forall data, r = Ok data ->
     observations e' = data /\
     Forall (fun t => rows_for (trial_index t) (trial_arms t)
                        (lookup_data_for_trial e' (trial_index t))) (trials e)).
Proof.
  intros W H. unfold eval in H.
  assert (Hts : Forall (fun t => trials e !! trial_index t = Some t) (trials e)).
  { apply Forall_forall. intros t Ht. apply (well_recorded_lookup e t W Ht). }
  destruct (eval_trials_spec _ _ _ _ _ _ W Hts (well_recorded_NoDup e W) H)
    as (W' & M & _ & R).
  split; [ exact W' | ]. split; [ exact M | ].
  intros data Hr. destruct (R data Hr) as [Hd Hf]. split; [ | exact Hf ].
  unfold observations. destruct M as (_ & _ & _ & _ & -> & _). symmetry. exact Hd.
Qed.

Lemma eval_returns_rows (e e' : SimpleExperiment) (rng rng' : rng_state)
    (data : list Observation) :
  well_recorded e -> eval e rng = (Ok data, e', rng') ->
  map (fun o => (obs_trial o, obs_arm o)) data =
    flat_map (fun t => map (pair (trial_index t)) (trial_arms t)) (trials e) /\
  Forall branin_row data /\
  map obs_arm data = arms_of e.
Proof.
  intros W H. destruct (eval_spec _ _ _ _ _ W H) as (_ & M & R).
  destruct (R data eq_refl) as [Hobs Hf]. rewrite <- Hobs. unfold observations.
  destruct M as (_ & _ & _ & _ & -> & _).
  apply (rows_for_flat_map (lookup_data_for_trial e') (trials e) Hf).
Qed.

Lemma eval_length (e e' : SimpleExperiment) (rng rng' : rng_state)
    (data : list Observation) :
  well_recorded e -> eval e rng = (Ok data, e', rng') ->
  length data = length (arms_of e).
Proof.
  intros W H. destruct (eval_returns_rows _ _ _ _ _ W H) as (_ & _ & Ha).
  rewrite <- Ha, length_map. reflexivity.
Qed.

(** Whatever is recorded, [exp.eval()] returns when every arm belongs to
    the search space. *)
Lemma eval_trials_returns (ts : list Trial) :
  forall (e : SimpleExperiment) (rng : rng_state),
    forallb arm_in_search_space (concat (map trial_arms ts)) = true ->
    exists data e' rng', eval_trials e ts rng = (Ok data, e', rng').
Proof.
  induction ts as [ | t rest IH]; intros e rng H.
  - exists [], e, rng. reflexivity.
  - cbn [map concat] in H. rewrite forallb_app in H.
    apply andb_prop in H as [Ht Hrest]. cbn [eval_trials].
    assert (Hone : exists rows e1 rng1, eval_trial e t rng = (Ok rows, e1, rng1)).
    { unfold eval_trial.
      destruct (lookup_data_for_trial e (trial_index t)) as [ | o cached];
        [ | eexists _, _, _; reflexivity ].
      destruct (trial_arms t) as [ | a arms] eqn:Ea;
        [ eexists _, _, _; reflexivity | ].
      destruct (eval_arms_returns (trial_index t) (a :: arms) rng Ht)
        as (rows & rng1 & E).
      rewrite E. eexists _, _, _. reflexivity. }
    destruct Hone as (rows & e1 & rng1 & E1). rewrite E1.
    destruct (IH e1 rng1 Hrest) as (data & e2 & rng2 & E2). rewrite E2.
    eexists _, _, _. reflexivity.
Qed.

(** Trials that hold their rows are not evaluated again. *)
Lemma eval_trials_cached (ts : list Trial) :
  forall (e : SimpleExperiment) (rng : rng_state),
    Forall (fun t => lookup_data_for_trial e (trial_index t) = [] ->
                     trial_arms t = []) ts ->
    eval_trials e ts rng =
      (Ok (flat_map (fun t => lookup_data_for_trial e (trial_index t)) ts), e, rng).
Proof.
  induction ts as [ | t rest IH]; intros e rng H.
  - reflexivity.
  - apply Forall_cons in H as [Ht Hrest]. cbn [eval_trials flat_map].
    assert (Hone : eval_trial e t rng
                   = (Ok (lookup_data_for_trial e (trial_index t)), e, rng)).
    { unfold eval_trial.
      destruct (lookup_data_for_trial e (trial_index t)) as [ | o cached];
        [ | reflexivity ].
      rewrite (Ht eq_refl). reflexivity. }
    rewrite Hone, (IH e rng Hrest). reflexivity.
Qed.

Lemma eval_trials_app (ts1 ts2 : list Trial) :
  forall (e : SimpleExperiment) (rng : rng_state),
    eval_trials e (ts1 ++ ts2) rng =
    match eval_trials e ts1 rng with
    | (Raised ex, e1, rng1) => (Raised ex, e1, rng1)
    | (Ok d1, e1, rng1) =>
        match eval_trials e1 ts2 rng1 with
        | (Raised ex, e2, rng2) => (Raised ex, e2, rng2)
        | (Ok d2, e2, rng2) => (Ok (d1 ++ d2), e2, rng2)
        end
    end.
Proof.
  induction ts1 as [ | t rest IH]; intros e rng.
  - cbn [app eval_trials]. destruct (eval_trials e ts2 rng) as [[[d2 | ex] e2] rng2];
      reflexivity.
  - cbn [app eval_trials].
    destruct (eval_trial e t rng) as [[[rows | ex] e1] rng1]; [ | reflexivity ].
    rewrite IH.
    destruct (eval_trials e1 rest rng1) as [[[d1 | ex] e2] rng2]; [ | reflexivity ].
    destruct (eval_trials e2 ts2 rng2) as [[[d2 | ex] e3] rng3]; [ | reflexivity ].
    rewrite app_assoc. reflexivity.
Qed.

(** After [exp.eval()] has returned, every trial with arms holds rows. *)
Lemma eval_evaluates (e e' : SimpleExperiment) (rng rng' : rng_state)
    (data : list Observation) :
  well_recorded e -> eval e rng = (Ok data, e', rng') ->
  Forall (fun t => lookup_data_for_trial e' (trial_index t) = [] ->
                   trial_arms t = []) (trials e').
Proof.
  intros W H. destruct (eval_spec _ _ _ _ _ W H) as (_ & M & R).
  destruct (R data eq_refl) as [_ Hf].
  destruct M as (_ & _ & _ & _ & -> & _).
  apply Forall_forall. intros t Ht Hnil.
  rewrite Forall_forall in Hf. specialize (Hf t Ht). rewrite Hnil in Hf.
  apply rows_for_length in Hf. cbn [length] in Hf.
  destruct (trial_arms t); [ reflexivity | discriminate Hf ].
Qed.

End EvalFacts.

(** *** The loop *)

Section LoopFacts.

Context {py : PythonLibs} {gp : GPLibs} {ax : AxLibs}.

Lemma length_sobol_gen (space : SearchSpace) (n : nat) :
  length (sobol_gen space n) = n.
Proof. unfold sobol_gen. rewrite length_map, length_seq. reflexivity. Qed.

Lemma gen_returns (cm : TorchModelBridge) (n : nat) (arms : list Arm) :
  gen cm n = Ok arms ->
  length arms = n /\
  exists candidate, acquisition cm n = Ok candidate /\
                    arms = map candidate (seq 0 n).
Proof.
  unfold gen. destruct (acquisition cm n) as [c | e]; [ | discriminate ].
  cbn [bind]. intros H. injection H as <-.
  rewrite length_map, length_seq. eauto.
Qed.

Lemma arms_of_warm_start (w : nat) (rng0 : rng_state) :
  length (arms_of (exp (warm_start w rng0))) = w.
Proof.
  unfold warm_start. cbn [exp]. rewrite arms_of_new_trial.
  cbn. apply length_sobol_gen.
Qed.

Lemma well_recorded_warm_start (w : nat) (rng0 : rng_state) :
  well_recorded (exp (warm_start w rng0)).
Proof.
  unfold warm_start. cbn [exp].
  apply well_recorded_new_trial, well_recorded_new_experiment.
Qed.

Lemma observations_warm_start (w : nat) (rng0 : rng_state) :
  observations (exp (warm_start w rng0)) = [].
Proof.
  unfold warm_start. cbn [exp].
  rewrite observations_new_trial by apply well_recorded_new_experiment.
  reflexivity.
Qed.

Lemma make_custom_model_spec (e e1 : SimpleExperiment) (rng rng1 : rng_state)
    (r : result TorchModelBridge) :
  well_recorded e -> make_custom_model e rng = (r, e1, rng1) ->
  well_recorded e1 /\ records_more e e1.
Proof.
  intros W H. unfold make_custom_model in H.
  destruct (eval e rng) as [[[data | ex] e2] rng2] eqn:Ee.
  - destruct (eval_spec _ _ _ _ _ W Ee) as (W2 & M & _).
    destruct (bridge_tensors (exp_search_space e) data) as [[Xs Ys] Yvars].
    destruct (_get_and_fit_custom_model Xs Ys _) as [model | ex];
      injection H as <- <- <-; auto.
  - destruct (eval_spec _ _ _ _ _ W Ee) as (W2 & M & _).
    injection H as <- <- <-. auto.
Qed.

(** A bridge that [make_custom_model] returns holds the rows of
    [exp.eval()] and the model the factory made of their tensors. *)
Lemma make_custom_model_returns (e e1 : SimpleExperiment) (rng rng1 : rng_state)
    (cm : TorchModelBridge) :
  make_custom_model e rng = (Ok cm, e1, rng1) ->
  eval e rng = (Ok (bridge_data cm), e1, rng1) /\
  bridge_search_space cm = exp_search_space e /\
  exists Xs Ys Yvars,
    bridge_tensors (exp_search_space e) (bridge_data cm) = (Xs, Ys, Yvars) /\
    _get_and_fit_custom_model Xs Ys
      {[ "Yvars" := PyTensors Yvars; "state_dict" := PyNone ]}
    = Ok (bridge_model cm).
Proof.
  unfold make_custom_model.
  destruct (eval e rng) as [[[data | ex] e2] rng2]; [ | discriminate ].
  destruct (bridge_tensors (exp_search_space e) data) as [[Xs Ys] Yvars] eqn:Et.
  destruct (_get_and_fit_custom_model Xs Ys _) as [model | ex] eqn:Ef;
    [ | discriminate ].
  intros H. injection H as <- <- <-. cbn [bridge_data bridge_search_space bridge_model].
  split; [ reflexivity | ]. split; [ reflexivity | ].
  exists Xs, Ys, Yvars. auto.
Qed.

Lemma optimization_loop_round (b i : nat) (rest : list nat) (nb : Notebook)
    (cm : TorchModelBridge) (exp1 : SimpleExperiment) (rng1 : rng_state)
    (generator_run : list Arm) :
  make_custom_model (exp nb) (rng nb) = (Ok cm, exp1, rng1) ->
  gen cm b = Ok generator_run ->
  optimization_loop b (i :: rest) nb =
  optimization_loop b rest (after_round cm exp1 rng1 generator_run).
Proof. intros H G. cbn [optimization_loop]. rewrite H, G. reflexivity. Qed.

Lemma optimization_loop_raise (b i : nat) (rest : list nat) (nb : Notebook)
    (e : exn) (exp1 : SimpleExperiment) (rng1 : rng_state) :
  make_custom_model (exp nb) (rng nb) = (Raised e, exp1, rng1) ->
  optimization_loop b (i :: rest) nb = (after_failure nb exp1 rng1, Failed i e).
Proof. intros H. cbn [optimization_loop]. rewrite H. reflexivity. Qed.

Lemma optimization_loop_gen_raise (b i : nat) (rest : list nat) (nb : Notebook)
    (cm : TorchModelBridge) (e : exn) (exp1 : SimpleExperiment)
    (rng1 : rng_state) :
  make_custom_model (exp nb) (rng nb) = (Ok cm, exp1, rng1) ->
  gen cm b = Raised e ->
  optimization_loop b (i :: rest) nb =
  (after_gen_failure nb cm exp1 rng1, Failed i e).
Proof. intros H G. cbn [optimization_loop]. rewrite H, G. reflexivity. Qed.

(** The three ways a round can go. *)
Lemma optimization_loop_cases (b i : nat) (rest : list nat) (nb : Notebook) :
  (exists cm exp1 rng1 generator_run,
      make_custom_model (exp nb) (rng nb) = (Ok cm, exp1, rng1) /\
      gen cm b = Ok generator_run /\
      optimization_loop b (i :: rest) nb =
      optimization_loop b rest (after_round cm exp1 rng1 generator_run)) \/
  (exists e exp1 rng1,
      make_custom_model (exp nb) (rng nb) = (Raised e, exp1, rng1) /\
      optimization_loop b (i :: rest) nb =
      (after_failure nb exp1 rng1, Failed i e)) \/
  (exists cm e exp1 rng1,
      make_custom_model (exp nb) (rng nb) = (Ok cm, exp1, rng1) /\
      gen cm b = Raised e /\
      optimization_loop b (i :: rest) nb =
      (after_gen_failure nb cm exp1 rng1, Failed i e)).
Proof.
  destruct (make_custom_model (exp nb) (rng nb)) as [[[cm | e] exp1] rng1] eqn:E.
  - destruct (gen cm b) as [generator_run | e] eqn:G.
    + left. exists cm, exp1, rng1, generator_run.
      split; [ reflexivity | ]. split; [ exact G | ].
      apply optimization_loop_round; assumption.
    + right. right. exists cm, e, exp1, rng1.
      split; [ reflexivity | ]. split; [ exact G | ].
      apply optimization_loop_gen_raise; assumption.
  - right. left. exists e, exp1, rng1. split; [ reflexivity | ].
    apply optimization_loop_raise; assumption.
Qed.

(** Rounds in sequence: the second part runs if the first fell through. *)
Lemma optimization_loop_app (b : nat) (r1 r2 : list nat) :
  forall nb : Notebook,
    optimization_loop b (r1 ++ r2) nb =
    match optimization_loop b r1 nb with
    | (nb1, Done) => optimization_loop b r2 nb1
    | (nb1, Failed i e) => (nb1, Failed i e)
    end.
Proof.
  induction r1 as [ | i r1 IH]; intros nb.
  - reflexivity.
  - cbn [app].
    destruct (optimization_loop_cases b i (r1 ++ r2) nb)
      as [(cm & exp1 & rng1 & gr & E & G & _)
         | [(e & exp1 & rng1 & E & _) | (cm & e & exp1 & rng1 & E & G & _)]].
    + rewrite !(optimization_loop_round b i _ nb cm exp1 rng1 gr E G). apply IH.
    + rewrite !(optimization_loop_raise b i _ nb e exp1 rng1 E). reflexivity.
    + rewrite !(optimization_loop_gen_raise b i _ nb cm e exp1 rng1 E G).
      reflexivity.
Qed.

(** What a run of the loop keeps and adds: the experiment stays well
    recorded and keeps its rows and its setup; one trial of [b] arms is
    attached per completed round, numbered on from the trials there
    were. *)
Lemma optimization_loop_trials (b : nat) (rounds : list nat) :
  forall (nb nb' : Notebook) (out : outcome),
    well_recorded (exp nb) ->
    optimization_loop b rounds nb = (nb', out) ->
    well_recorded (exp nb') /\
    exists k : nat,
      match out with
      | Done => k = length rounds
      | Failed i _ => rounds !! k = Some i
      end /\
      map trial_index (trials (exp nb')) =
        map trial_index (trials (exp nb)) ++ seq (length (trials (exp nb))) k /\
      map (fun t => length (trial_arms t)) (trials (exp nb')) =
        map (fun t => length (trial_arms t)) (trials (exp nb)) ++ repeat b k /\
      exp_name (exp nb') = exp_name (exp nb) /\
      exp_search_space (exp nb') = exp_search_space (exp nb) /\
      objective_name (exp nb') = objective_name (exp nb) /\
      minimize (exp nb') = minimize (exp nb).
Proof.
  induction rounds as [ | i rest IH]; intros nb nb' out W H.
  - cbn in H. injection H as <- <-. split; [ exact W | ].
    exists 0. cbn [seq repeat]. rewrite !app_nil_r. auto 10.
  - destruct (optimization_loop_cases b i rest nb)
      as [(cm & exp1 & rng1 & gr & E & G & Eq)
         | [(e & exp1 & rng1 & E & Eq) | (cm & e & exp1 & rng1 & E & G & Eq)]];
      rewrite Eq in H; clear Eq;
      destruct (make_custom_model_spec _ _ _ _ _ W E)
        as (W1 & N1 & S1 & O1 & M1 & T1 & _).
    + assert (W2 : well_recorded (exp (after_round cm exp1 rng1 gr))).
      { cbn [after_round exp]. apply well_recorded_new_trial, W1. }
      destruct (IH _ _ _ W2 H) as (W' & k & Hk & Hi & Hs & Hn & Hsp & Ho & Hmin).
      split; [ exact W' | ].
      cbn [after_round exp new_trial fst trials exp_name exp_search_space
             objective_name minimize] in Hi, Hs, Hn, Hsp, Ho, Hmin.
      rewrite T1 in Hi, Hs. rewrite map_app, length_app in Hi. rewrite map_app in Hs.
      cbn [map length trial_index trial_arms] in Hi, Hs.
      rewrite (proj1 (gen_returns cm b gr G)) in Hs.
      exists (S k). split; [ destruct out; [ cbn [length]; lia | exact Hk ] | ].
      rewrite Hi, Hs, <- !app_assoc. cbn [app seq repeat].
      replace (length (trials (exp nb)) + 1) with (S (length (trials (exp nb))))
        by lia.
      repeat split; congruence.
    + injection H as <- <-. cbn [after_failure exp]. split; [ exact W1 | ].
      exists 0. cbn [seq repeat]. rewrite !app_nil_r, T1. auto 10.
    + injection H as <- <-. cbn [after_gen_failure exp]. split; [ exact W1 | ].
      exists 0. cbn [seq repeat]. rewrite !app_nil_r, T1. auto 10.
Qed.

(** The arms attached when the loop ends: [b] more per completed round. *)
Lemma optimization_loop_arms (b : nat) (rounds : list nat) :
  forall (nb nb' : Notebook) (out : outcome),
    well_recorded (exp nb) ->
    optimization_loop b rounds nb = (nb', out) ->
    match out with
    | Done =>
        length (arms_of (exp nb')) =
        length (arms_of (exp nb)) + length rounds * b
    | Failed i e =>
        exists k, rounds !! k = Some i /\
                  length (arms_of (exp nb')) = length (arms_of (exp nb)) + k * b
    end.
Proof.
  induction rounds as [ | i rest IH]; intros nb nb' out W H.
  - cbn in H. injection H as <- <-. cbn. lia.
  - destruct (optimization_loop_cases b i rest nb)
      as [(cm & exp1 & rng1 & gr & E & G & Eq)
         | [(e & exp1 & rng1 & E & Eq) | (cm & e & exp1 & rng1 & E & G & Eq)]];
      rewrite Eq in H; clear Eq;
      destruct (make_custom_model_spec _ _ _ _ _ W E)
        as (W1 & _ & _ & _ & _ & T1 & _);
      assert (A1 : arms_of exp1 = arms_of (exp nb))
        by (unfold arms_of; rewrite T1; reflexivity).
    + assert (W2 : well_recorded (exp (after_round cm exp1 rng1 gr))).
      { cbn [after_round exp]. apply well_recorded_new_trial, W1. }
      apply (IH _ _ _ W2) in H. cbn [after_round exp] in H.
      rewrite arms_of_new_trial, length_app, A1,
        (proj1 (gen_returns cm b gr G)) in H.
      destruct out as [ | j e].
      * cbn [length]. lia.
      * destruct H as (k & Hk & Hlen). exists (S k). split; [ exact Hk | lia ].
    + injection H as <- <-. exists 0. cbn [after_failure exp].
      rewrite A1. split; [ reflexivity | lia ].
    + injection H as <- <-. exists 0. cbn [after_gen_failure exp].
      rewrite A1. split; [ reflexivity | lia ].
Qed.

(** A failed loop: the rounds before the failing one fell through, and
    in the failing round either [make_custom_model] raised or
    [custom_model.gen] did. *)
Lemma optimization_loop_failed (b : nat) (rounds : list nat) :
  forall (nb nb' : Notebook) (i : nat) (e : exn),
    optimization_loop b rounds nb = (nb', Failed i e) ->
    exists (k : nat) (mid : Notebook),
      rounds !! k = Some i /\
      optimization_loop b (take k rounds) nb = (mid, Done) /\
      ((exists exp1,
           make_custom_model (exp mid) (rng mid) = (Raised e, exp1, rng nb') /\
           nb' = after_failure mid exp1 (rng nb')) \/
       (exists cm exp1,
           make_custom_model (exp mid) (rng mid) = (Ok cm, exp1, rng nb') /\
           gen cm b = Raised e /\
           nb' = after_gen_failure mid cm exp1 (rng nb'))).
Proof.
  induction rounds as [ | j rest IH]; intros nb nb' i e H.
  - discriminate H.
  - destruct (optimization_loop_cases b j rest nb)
      as [(cm & exp1 & rng1 & gr & E & G & Eq)
         | [(e' & exp1 & rng1 & E & Eq) | (cm & e' & exp1 & rng1 & E & G & Eq)]];
      rewrite Eq in H; clear Eq.
    + destruct (IH _ _ _ _ H) as (k & mid & Hk & Hl & Hm).
      exists (S k), mid. split; [ exact Hk | ].
      cbn [take]. rewrite (optimization_loop_round b j _ nb cm exp1 rng1 gr E G).
      auto.
    + injection H as <- <- <-. exists 0, nb. cbn [after_failure rng].
      split; [ reflexivity | ]. split; [ reflexivity | ].
      left. exists exp1. auto.
    + injection H as <- <- <-. exists 0, nb. cbn [after_gen_failure rng].
      split; [ reflexivity | ]. split; [ reflexivity | ].
      right. exists cm, exp1. auto.
Qed.

(** The last round of a loop that fell through. *)
Lemma optimization_loop_last (b i : nat) (r : list nat) (nb nb' : Notebook) :
  optimization_loop b (r ++ [i]) nb = (nb', Done) ->
  exists (prev : Notebook) (cm : TorchModelBridge) (exp1 : SimpleExperiment)
         (rng1 : rng_state) (generator_run : list Arm),
    optimization_loop b r nb = (prev, Done) /\
    make_custom_model (exp prev) (rng prev) = (Ok cm, exp1, rng1) /\
    gen cm b = Ok generator_run /\
    nb' = after_round cm exp1 rng1 generator_run.
Proof.
  rewrite optimization_loop_app.
  destruct (optimization_loop b r nb) as [prev [ | j e]]; [ | discriminate ].
  destruct (optimization_loop_cases b i [] prev)
    as [(cm & exp1 & rng1 & gr & E & G & Eq)
       | [(e' & exp1 & rng1 & E & Eq) | (cm & e' & exp1 & rng1 & E & G & Eq)]];
    rewrite Eq; clear Eq; [ | discriminate | discriminate ].
  cbn [optimization_loop]. intros H. injection H as <-.
  exists prev, cm, exp1, rng1, gr. auto.
Qed.

Lemma run_well_recorded (w n b : nat) (rng0 : rng_state) (nb : Notebook)
    (out : outcome) :
  run w n b rng0 = (nb, out) -> well_recorded (exp nb).
Proof.
  unfold run. intros H.
  apply (optimization_loop_trials b _ _ _ _ (well_recorded_warm_start w rng0) H).
Qed.

Lemma run_arms (w n b : nat) (rng0 : rng_state) (nb : Notebook) (out : outcome) :
  run w n b rng0 = (nb, out) ->
  match out with
  | Done => length (arms_of (exp nb)) = w + n * b
  | Failed i e => i < n /\ length (arms_of (exp nb)) = w + i * b
  end.
Proof.
  unfold run. intros H.
  apply (optimization_loop_arms b _ _ _ _ (well_recorded_warm_start w rng0)) in H.
  rewrite arms_of_warm_start in H. destruct out as [ | i e].
  - rewrite length_seq in H. exact H.
  - destruct H as (k & Hk & Hlen).
    apply lookup_seq in Hk as [-> Hlt]. cbn in Hlen. split; assumption.
Qed.

(** The last round of a run that fell through. *)
Lemma run_last (w n b : nat) (rng0 : rng_state) (nb : Notebook) :
  run w (S n) b rng0 = (nb, Done) ->
  exists (prev : Notebook) (cm : TorchModelBridge) (exp1 : SimpleExperiment)
         (rng1 : rng_state) (generator_run : list Arm),
    run w n b rng0 = (prev, Done) /\
    make_custom_model (exp prev) (rng prev) = (Ok cm, exp1, rng1) /\
    gen cm b = Ok generator_run /\
    nb = after_round cm exp1 rng1 generator_run.
Proof.
  unfold run. rewrite seq_S. cbn [Nat.add]. apply optimization_loop_last.
Qed.

(** The rounds before the one that raised. *)
Lemma run_failed (w n b : nat) (rng0 : rng_state) (nb : Notebook) (i : nat)
    (e : exn) :
  run w n b rng0 = (nb, Failed i e) ->
  i < n /\
  exists prev : Notebook,
    run w i b rng0 = (prev, Done) /\
    ((exists exp1,
         make_custom_model (exp prev) (rng prev) = (Raised e, exp1, rng nb) /\
         nb = after_failure prev exp1 (rng nb)) \/
     (exists cm exp1,
         make_custom_model (exp prev) (rng prev) = (Ok cm, exp1, rng nb) /\
         gen cm b = Raised e /\
         nb = after_gen_failure prev cm exp1 (rng nb))).
Proof.
  unfold run. intros H.
  destruct (optimization_loop_failed b _ _ _ _ _ H) as (k & mid & Hk & Hl & Hm).
  apply lookup_seq in Hk as [-> Hlt]. cbn [Nat.add] in Hl.
  rewrite take_seq, Nat.min_l in Hl by lia.
  split; [ exact Hlt | ]. exists mid. auto.
Qed.

End LoopFacts.

Section NotebookClaims.

Context {py : PythonLibs} {gp : GPLibs} {ax : AxLibs}.

(** Evaluating right after a trial was attached to an experiment whose
    trials all hold their rows: the rows there are come back as they
    are, and only the arms of the new trial are evaluated. *)
Lemma eval_new_trial (e1 : SimpleExperiment) (generator_run : list Arm)
    (rng : rng_state) :
  well_recorded e1 ->
  Forall (fun t => lookup_data_for_trial e1 (trial_index t) = [] ->
                   trial_arms t = []) (trials e1) ->
  eval (fst (new_trial e1 generator_run)) rng =
  match generator_run with
  | [] => (Ok (observations e1), fst (new_trial e1 generator_run), rng)
  | _ :: _ =>
      match eval_arms (length (trials e1)) generator_run rng with
      | (Raised ex, rng1) => (Raised ex, fst (new_trial e1 generator_run), rng1)
      | (Ok added, rng1) =>
          (Ok (observations e1 ++ added),
           attach_data (fst (new_trial e1 generator_run)) (length (trials e1)) added,
           rng1)
      end
  end.
Proof.
  intros W Hev. unfold eval. cbn [new_trial fst trials].
  rewrite eval_trials_app.
  set (e := {| exp_name := exp_name e1; exp_search_space := exp_search_space e1;
               objective_name := objective_name e1; minimize := minimize e1;
               trials := trials e1 ++ [{| trial_index := length (trials e1);
                                          trial_arms := generator_run |}];
               data_by_trial := data_by_trial e1 |}).
  assert (Hl : forall i, lookup_data_for_trial e i = lookup_data_for_trial e1 i)
    by reflexivity.
  rewrite (eval_trials_cached (trials e1) e rng)
    by (apply Forall_forall; intros t Ht; rewrite Hl;
        apply (proj1 (Forall_forall _ _) Hev t Ht)).
  cbn [eval_trials]. unfold eval_trial. cbn [trial_index trial_arms].
  rewrite Hl, (well_recorded_fresh e1 W). unfold observations.
  destruct generator_run as [ | a rest].
  - rewrite app_nil_r. reflexivity.
  - destruct (eval_arms (length (trials e1)) (a :: rest) rng) as [[added | ex] rng1];
      [ | reflexivity ].
    rewrite app_nil_r. reflexivity.
Qed.

(** The experiment a run leaves when it falls through is one to which
    the last trial was attached right after an evaluation. *)
Lemma run_done_shape (w n b : nat) (rng0 : rng_state) (nb : Notebook) :
  run w n b rng0 = (nb, Done) ->
  exists (e1 : SimpleExperiment) (generator_run : list Arm),
    exp nb = fst (new_trial e1 generator_run) /\
    well_recorded e1 /\
    Forall (fun t => lookup_data_for_trial e1 (trial_index t) = [] ->
                     trial_arms t = []) (trials e1) /\
    length (observations e1) = match n with 0 => 0 | S m => w + m * b end.
Proof.
  destruct n as [ | m]; intros H.
  - cbn in H. injection H as <-.
    exists new_experiment, (sobol_gen (exp_search_space new_experiment) w).
    split; [ reflexivity | ]. split; [ apply well_recorded_new_experiment | ].
    split; [ constructor | reflexivity ].
  - destruct (run_last _ _ _ _ _ H) as (prev & cm & exp1 & rng1 & gr & Hp & Hm & _ & ->).
    pose proof (run_well_recorded _ _ _ _ _ _ Hp) as Wp.
    destruct (make_custom_model_returns _ _ _ _ _ Hm) as (He & _).
    destruct (eval_spec _ _ _ _ _ Wp He) as (W1 & _ & R).
    destruct (R _ eq_refl) as [Hobs _].
    exists exp1, gr. split; [ reflexivity | ]. split; [ exact W1 | ].
    split; [ apply (eval_evaluates _ _ _ _ _ Wp He) | ].
    rewrite Hobs, (eval_length _ _ _ _ _ Wp He).
    apply (run_arms _ _ _ _ _ _ Hp).
Qed.



(** C8.  The model that round [n] binds to [custom_model] is made in
    that round by [make_custom_model(exp)].  Its data are the rows
    [exp.eval()] returns in that round: the observations there were,
    followed by those of the arms that were pending, one for every arm
    attached so far (the warm start and the [n] rounds before), all
    recorded in the experiment.  Its model is a new one on the first
    tensors Ax makes of these rows, with the parameters [fit_model]
    returns from the initial ones: no [state_dict] of an earlier model
    enters, and the handle bound before the round is not read, the round
    ending in the same state whatever it was. *)
Theorem each_round_refits_on_all_data (w n b : nat) (rng0 : rng_state)
    (nb : Notebook) :
  run w (S n) b rng0 = (nb, Done) ->
  exists (prev : Notebook) (cm : TorchModelBridge) (exp1 : SimpleExperiment)
         (added : list Observation) (Xs Ys Yvars : list Tensor) (X0 Y0 : Tensor),
    run w n b rng0 = (prev, Done) /\
    eval (exp prev) (rng prev) = (Ok (bridge_data cm), exp1, rng nb) /\
    bridge_data cm = observations (exp prev) ++ added /\
    observations exp1 = bridge_data cm /\
    map obs_arm (bridge_data cm) = arms_of (exp prev) /\
    length (bridge_data cm) = w + n * b /\
    bridge_tensors (exp_search_space (exp prev)) (bridge_data cm) = (Xs, Ys, Yvars) /\
    Xs !! 0 = Some X0 /\ Ys !! 0 = Some Y0 /\
    train_X (bridge_model cm) = X0 /\
    train_Y (bridge_model cm) = view_flat Y0 /\
    fit_model X0 (view_flat Y0) (initial_state (ard_num_dims (bridge_model cm)))
      = Ok (state (bridge_model cm)) /\
    custom_model nb = Some cm /\
    forall (stale : option TorchModelBridge) (t : option Trial),
      optimization_loop b [n]
        {| exp := exp prev; custom_model := stale; batch := t; rng := rng prev |}
      = (nb, Done).
Proof.
  intros H.
  destruct (run_last _ _ _ _ _ H) as (prev & cm & exp1 & rng1 & gr & Hp & Hm & Hg & ->).
  pose proof (run_well_recorded _ _ _ _ _ _ Hp) as Wp.
  destruct (make_custom_model_returns _ _ _ _ _ Hm)
    as (He & _ & Xs & Ys & Yvars & Ht & Hf).
  destruct (eval_spec _ _ _ _ _ Wp He) as (_ & _ & R).
  destruct (R _ eq_refl) as [Hobs _].
  destruct (eval_returns_rows _ _ _ _ _ Wp He) as (_ & _ & Harms).
  assert (Hfirst : exists X0 Y0 Xs' Ys', Xs = X0 :: Xs' /\ Ys = Y0 :: Ys').
  { destruct Xs as [ | X0 Xs']; [ discriminate Hf | ].
    destruct Ys as [ | Y0 Ys']; [ discriminate Hf | ].
    exists X0, Y0, Xs', Ys'. split; reflexivity. }
  destruct Hfirst as (X0 & Y0 & Xs' & Ys' & -> & ->).
  rewrite factory_on_first_outcome in Hf.
  destruct (view Y0) as [Y | e] eqn:Ev; [ | discriminate Hf ].
  apply view_returns in Ev as ->. cbn [bind] in Hf.
  destruct (shape_last X0) as [d | e]; [ | discriminate Hf ]. cbn [bind] in Hf.
  destruct (fit_model X0 (view_flat Y0) (initial_state d)) as [st | e] eqn:Efit;
    [ | discriminate Hf ].
  injection Hf as Hmodel.
  assert (Hadded : exists added,
             bridge_data cm = observations (exp prev) ++ added).
  { destruct (run_done_shape _ _ _ _ _ Hp) as (e1 & gr1 & Hshape & W1 & Hev & _).
    rewrite Hshape in He |- *.
    rewrite (eval_new_trial e1 gr1 (rng prev) W1 Hev) in He.
    rewrite (observations_new_trial e1 gr1 W1).
    destruct gr1 as [ | a rest].
    - injection He as <- _ _. exists []. rewrite app_nil_r. reflexivity.
    - destruct (eval_arms (length (trials e1)) (a :: rest) (rng prev))
        as [[added | ex] rng2]; [ | discriminate He ].
      injection He as <- _ _. exists added. reflexivity. }
  destruct Hadded as [added Hadded].
  exists prev, cm, exp1, added, (X0 :: Xs'), (Y0 :: Ys'), Yvars, X0, Y0.
  cbn [after_round rng custom_model].
  split; [ exact Hp | ]. split; [ exact He | ]. split; [ exact Hadded | ].
  split; [ exact Hobs | ]. split; [ exact Harms | ].
  split.
  { rewrite (eval_length _ _ _ _ _ Wp He). apply (run_arms _ _ _ _ _ _ Hp). }
  split; [ exact Ht | ]. split; [ reflexivity | ]. split; [ reflexivity | ].
  rewrite <- Hmodel. cbn [train_X train_Y ard_num_dims state].
  split; [ reflexivity | ]. split; [ reflexivity | ]. split; [ exact Efit | ].
  split; [ reflexivity | ].
  intros stale t. cbn [optimization_loop exp rng]. rewrite Hm, Hg. reflexivity.
Qed.

(** X3.  On a well-recorded experiment whose arms all belong to the
    search space, [exp.eval()] returns: one observation per arm, each of
    the metric ["branin"] with standard error 0.0. *)
Theorem eval_on_search_space (e : SimpleExperiment) (rng : rng_state) :
  well_recorded e ->
  forallb arm_in_search_space (arms_of e) = true ->
  exists data e' rng',
    eval e rng = (Ok data, e', rng') /\
    length data = length (arms_of e) /\
    Forall branin_row data.
Proof.
  intros W H. destruct (eval_trials_returns (trials e) e rng H) as (data & e' & rng' & E).
  exists data, e', rng'. split; [ exact E | ].
  split; [ apply (eval_length e e' rng rng' data W E) | ].
  apply (eval_returns_rows e e' rng rng' data W E).
Qed.


End NotebookClaims.

(** ** The cells on the stand-in libraries *)





Lemma each_round_refits_on_all_data_witness :
  exists (cm : TorchModelBridge (gp := Stub.gpytorch)) (X0 Y0 : Tensor),
    custom_model Stub.finished = Some cm /\
    length (bridge_data cm) = 5 + 4 * 1 /\
    train_X (bridge_model cm) = X0 /\
    train_Y (bridge_model cm) = view_flat Y0 /\
    fit_model X0 (view_flat Y0) (initial_state (ard_num_dims (bridge_model cm)))
      = Ok (state (bridge_model cm)).
Proof.
  assert (H : run (py := Stub.python) (gp := Stub.gpytorch) (ax := Stub.ax _)
                5 5 1 0 = (Stub.finished, Done)).
  { vm_compute. reflexivity. }
  destruct (each_round_refits_on_all_data (py := Stub.python)
              (gp := Stub.gpytorch) (ax := Stub.ax _) 5 4 1 0 _ H)
    as (prev & cm & exp1 & added & Xs & Ys & Yvars & X0 & Y0
        & _ & _ & _ & _ & _ & Hlen & _ & _ & _ & HX & HY & Hfit & Hcm & _).
  exists cm, X0, Y0. auto.
Defined.

Lemma eval_on_search_space_witness :
  exists (data : list Observation) (e' : SimpleExperiment)
         (rng' : rng_state (PythonLibs := Stub.python)),
    eval (py := Stub.python) (exp Stub.warm) 0 = (Ok data, e', rng') /\
    length data = length (arms_of (exp Stub.warm)) /\
    Forall branin_row data.
Proof.
  refine (eval_on_search_space (py := Stub.python) (exp Stub.warm) 0 _ _).
  - exact (well_recorded_warm_start (py := Stub.python) (gp := Stub.diverging)
             (ax := Stub.ax _) 5 0).
  - vm_compute. reflexivity.
Defined.

Lemma branin_exceptions_witness :
  branin (py := Stub.python) {[ "x2" := zero ]} [] 0 = (Raised (KeyError "x1"), 0).
Proof.
  refine (proj1 (branin_exceptions (py := Stub.python) {[ "x2" := zero ]} [] 0) _).
  reflexivity.
Defined.



Lemma factory_raises_witness :
  (OtherError "RuntimeError" = IndexError /\
   ([Stub.X_train] = [] \/ [Stub.Y_train] = [] \/
    exists X0, [Stub.X_train] !! 0 = Some X0 /\ shape X0 = [])) \/
  (OtherError "RuntimeError" = OtherError "RuntimeError" /\
   exists X0 Y0,
     [Stub.X_train] !! 0 = Some X0 /\ [Stub.Y_train] !! 0 = Some Y0 /\
     can_view (GPLibs := Strided.gpytorch) Y0 = false) \/
  (exists X0 Y0 d,
      [Stub.X_train] !! 0 = Some X0 /\ [Stub.Y_train] !! 0 = Some Y0 /\
      can_view (GPLibs := Strided.gpytorch) Y0 = true /\
      shape_last X0 = Ok d /\
      fit_model (GPLibs := Strided.gpytorch) X0 (view_flat Y0) (initial_state d)
        = Raised (OtherError "RuntimeError")).
Proof.
  apply (factory_raises (gp := Strided.gpytorch) [Stub.X_train] [Stub.Y_train] ∅).
  reflexivity.
Defined.

(** * Further properties *)

(** ** Squares that overflow *)

Section FloatOverflow.

Local Open Scope Z_scope.

(** A mantissa of at least [2 ^ k] has more than [k] digits. *)
Lemma Zdigits2_ge (m k : Z) : 0 <= k -> 2 ^ k <= m -> k + 1 <= Zdigits2 m.
Proof.
  intros Hk H.
  assert (Hpos : 0 < 2 ^ k) by (apply Z.pow_pos_nonneg; lia).
  destruct m as [ | p | p]; [ lia | | lia ].
  pose proof (digits2_pos_upper p) as U. cbn [Zdigits2].
  assert (Hlt : 2 ^ k < 2 ^ Zpos (digits2_pos p)) by lia.
  apply (proj2 (Z.pow_lt_mono_r_iff 2 k (Zpos (digits2_pos p)) ltac:(lia) ltac:(lia)))
    in Hlt.
  lia.
Qed.

Lemma Zdigits2_positive (m : Z) : 0 <= m -> 0 < Zdigits2 m -> 0 < m.
Proof. destruct m; cbn [Zdigits2]; lia. Qed.

Lemma digits2_pos_square (m : positive) :
  2 * Zpos (digits2_pos m) - 1 <= Zpos (digits2_pos (m * m)).
Proof.
  pose proof (digits2_pos_lower m) as L.
  set (d := Zpos (digits2_pos m)) in *.
  assert (Hd : 1 <= d) by (unfold d; lia).
  assert (Hp : 0 < 2 ^ (d - 1)) by (apply Z.pow_pos_nonneg; lia).
  pose proof (Zdigits2_ge (Zpos (m * m)) (2 * d - 2) ltac:(lia)) as G.
  cbn [Zdigits2] in G.
  replace (2 * d - 2) with ((d - 1) + (d - 1)) in G by lia.
  rewrite Z.pow_add_r in G by lia. rewrite Pos2Z.inj_mul in G.
  assert (2 ^ (d - 1) * 2 ^ (d - 1) <= Zpos m * Zpos m) by nia.
  lia.
Qed.

(** On a large enough magnitude [shr_fexp] keeps the mantissa positive
    and the magnitude as it is, at an exponent of the magnitude less 53
    at least. *)
Lemma shr_fexp_large (m e : Z) (l : location) :
  0 < m -> -1021 <= Zdigits2 m + e ->
  let r := shr_fexp prec emax m e l in
  0 < shr_m (fst r) /\
  Zdigits2 (shr_m (fst r)) + snd r = Zdigits2 m + e /\
  Zdigits2 m + e - 53 <= snd r.
Proof.
  intros Hm HD.
  assert (Hdig : 1 <= Zdigits2 m) by (destruct m; cbn [Zdigits2]; lia).
  unfold shr_fexp, shr. rewrite fexp_eq.
  destruct (Z.max (Zdigits2 m + e - 53) (-1074) - e) as [ | n | n] eqn:En;
    cbn [fst snd]; rewrite ?shr_m_of_loc; try lia.
  assert (Hd : Zdigits2 (shr_m (SpecFloat.iter_pos shr_1 n (shr_record_of_loc m l)))
               = 53).
  { rewrite iter_shr_1_digits, shr_m_of_loc. lia. }
  split; [ | lia ].
  apply Zdigits2_positive; [ | lia ].
  apply iter_shr_1_nonneg. rewrite shr_m_of_loc. lia.
Qed.

Lemma round_nearest_even_grows (m : Z) (l : location) :
  0 < m ->
  0 < round_nearest_even m l /\ Zdigits2 m <= Zdigits2 (round_nearest_even m l).
Proof.
  intros Hm.
  assert (Hs : Zdigits2 m <= Zdigits2 (m + 1)).
  { destruct m as [ | p | p]; [ lia | | lia ].
    pose proof (digits2_pos_lower p) as L. cbn [Zdigits2].
    pose proof (Zdigits2_ge (Zpos p + 1) (Zpos (digits2_pos p) - 1) ltac:(lia)
                  ltac:(lia)) as G.
    lia. }
  unfold round_nearest_even.
  destruct l as [ | [ | | ]]; try destruct (Z.even m); split; lia.
Qed.

(** Rounding a mantissa and exponent of magnitude [2 ^ 1024] or more
    gives the infinity. *)
Lemma binary_round_aux_overflow (s : bool) (mx ex : Z) (l : location) :
  0 < mx -> 1025 <= Zdigits2 mx + ex ->
  binary_round_aux prec emax s mx ex l = S754_infinity s.
Proof.
  intros Hm HD. unfold binary_round_aux.
  pose proof (shr_fexp_large mx ex l Hm ltac:(lia)) as H1. cbv zeta in H1.
  destruct (shr_fexp prec emax mx ex l) as [mrs' e']. cbn [fst snd] in H1.
  destruct H1 as (P1 & D1 & E1).
  pose proof (round_nearest_even_grows (shr_m mrs') (loc_of_shr_record mrs') P1)
    as [P2 D2].
  set (m2 := round_nearest_even (shr_m mrs') (loc_of_shr_record mrs')) in *.
  pose proof (shr_fexp_large m2 e' loc_Exact P2 ltac:(lia)) as H3. cbv zeta in H3.
  destruct (shr_fexp prec emax m2 e' loc_Exact) as [mrs'' e'']. cbn [fst snd] in H3.
  destruct H3 as (P3 & D3 & E3).
  destruct (shr_m mrs'') as [ | m | m]; [ lia | | lia ].
  destruct (Z.leb_spec e'' (emax - prec)) as [Hle | Hgt]; [ | reflexivity ].
  unfold emax, prec in Hle. lia.
Qed.

(** [x ** 2] raises [OverflowError] on every finite [x] of [2 ^ 512] or
    more in absolute value. *)
Lemma pow2_overflow (s : bool) (m : positive) (e : Z) :
  513 <= Zpos (digits2_pos m) + e ->
  pow2 (S754_finite s m e) = Raised OverflowError.
Proof.
  intros H. unfold pow2, mul. cbn [SFabs SFmul].
  rewrite binary_round_aux_overflow; [ reflexivity | lia | ].
  cbn [Zdigits2]. pose proof (digits2_pos_square m). lia.
Qed.

End FloatOverflow.

(** ** The objective outside the search space *)

Section ObjectiveProperties.

Context {py : PythonLibs}.

(** X2.  [branin] reads the keys ["x1"] and ["x2"] and nothing else:
    two parameterizations that agree on both, present or missing, get
    the same answer from the same generator state, whatever other keys
    they hold and whatever is passed after them. *)
Theorem branin_reads_x1_x2_only (p q : gmap string float)
    (args args' : list (option float)) (rng : rng_state) :
  p !! "x1" = q !! "x1" -> p !! "x2" = q !! "x2" ->
  branin p args rng = branin q args' rng.
Proof. intros H1 H2. unfold branin, getitem. rewrite H1, H2. reflexivity. Qed.

(** X6.  Nothing clamps the parameters: a finite [x1] of [2 ^ 512] or
    more in absolute value (mantissa [m] and exponent [e] with
    [digits m + e >= 513]) makes [x1 ** 2] raise [OverflowError], which
    leaves [branin] before any noise is drawn. *)
Theorem branin_overflow (p : gmap string float) (args : list (option float))
    (rng : rng_state) (s : bool) (m : positive) (e : Z) :
  p !! "x1" = Some (S754_finite s m e) -> is_Some (p !! "x2") ->
  (513 <= Zpos (digits2_pos m) + e)%Z ->
  branin p args rng = (Raised OverflowError, rng).
Proof.
  intros H1 [x2 H2] Hm. apply (branin_raises p args rng _ x2 _ H1 H2).
  unfold branin_noiseless. rewrite pow2_np_pi. cbn [bind].
  rewrite (pow2_overflow s m e Hm). reflexivity.
Qed.

End ObjectiveProperties.

(** ** The model the factory returns *)

Section ModelProperties.

Context {gp : GPLibs}.

(** X7.  [Ys[0].view(-1)] collapses the trailing dimension: from
    targets of shape [n x 1] the factory trains on the same [n] values
    as a tensor of shape [n], on [Xs[0]] as it came, with as many ARD
    length scales as [Xs[0]] has columns. *)
Theorem factory_collapses_trailing_dimension (X0 : Tensor) (n d : nat)
    (ys : list float) (Xs Ys : list Tensor) (kwargs : gmap string PyObject)
    (model : SimpleCustomGP) :
  shape X0 = [n; d] ->
  _get_and_fit_custom_model
    (X0 :: Xs) ({| shape := [n; 1]; entries := ys |} :: Ys) kwargs = Ok model ->
  train_X model = X0 /\
  train_Y model = {| shape := [n]; entries := ys |} /\
  ard_num_dims model = d.
Proof.
  intros HX H. rewrite factory_on_first_outcome in H.
  destruct (view _) as [Y | e] eqn:Ev; [ | discriminate H ].
  apply view_returns in Ev as ->. cbn [bind] in H.
  unfold shape_last in H. rewrite HX in H. cbn [last bind] in H.
  destruct (fit_model _ _ _) as [st | e]; [ | discriminate H ].
  injection H as <-. cbn [train_X train_Y ard_num_dims].
  split; [ reflexivity | ]. split; [ | reflexivity ].
  unfold view_flat, numel. cbn [shape entries foldr].
  rewrite !Nat.mul_1_r. reflexivity.
Qed.

End ModelProperties.

(** ** The experiment across the loop *)

Section NotebookProperties.

Context {py : PythonLibs} {gp : GPLibs} {ax : AxLibs}.

(** X9.  Whenever [exp.eval()] returns on a well-recorded experiment,
    its rows follow the order of the trials and, within a trial, of its
    arms: each row carries the index of its trial and its arm, the
    metric ["branin"] and the standard error 0.0; they are the
    observations the experiment holds afterwards. *)
Theorem eval_rows (e e' : SimpleExperiment) (rng rng' : rng_state)
    (data : list Observation) :
  well_recorded e ->
  eval e rng = (Ok data, e', rng') ->
  map (fun o => (obs_trial o, obs_arm o)) data =
    flat_map (fun t => map (pair (trial_index t)) (trial_arms t)) (trials e) /\
  Forall branin_row data /\
  observations e' = data.
Proof.
  intros W H. destruct (eval_returns_rows _ _ _ _ _ W H) as (Hm & Hf & _).
  destruct (eval_spec _ _ _ _ _ W H) as (_ & _ & R).
  split; [ exact Hm | ]. split; [ exact Hf | apply (R data eq_refl) ].
Qed.

(** X10.  A trial is evaluated once.  After [exp.eval()] has returned, a
    second [exp.eval()] returns the same rows, calls the evaluation
    function on no arm (the random generator is left as it is) and
    changes nothing; after a trial was attached, [exp.eval()] calls the
    evaluation function on the arms of the new trial only, returns the
    rows there were followed by the new ones and records these; when a
    new arm raises, nothing is recorded. *)
Theorem eval_after_new_trial (e e1 : SimpleExperiment) (a : Arm)
    (generator_run : list Arm) (rng rng1 rng2 : rng_state)
    (data : list Observation) :
  well_recorded e ->
  eval e rng = (Ok data, e1, rng1) ->
  eval e1 rng2 = (Ok data, e1, rng2) /\
  eval (fst (new_trial e1 (a :: generator_run))) rng2 =
  match eval_arms (length (trials e1)) (a :: generator_run) rng2 with
  | (Raised ex, rng3) =>
      (Raised ex, fst (new_trial e1 (a :: generator_run)), rng3)
  | (Ok added, rng3) =>
      (Ok (data ++ added),
       attach_data (fst (new_trial e1 (a :: generator_run)))
         (length (trials e1)) added,
       rng3)
  end.
Proof.
  intros W H.
  destruct (eval_spec _ _ _ _ _ W H) as (W1 & _ & R).
  destruct (R data eq_refl) as [Hobs _].
  pose proof (eval_evaluates _ _ _ _ _ W H) as Hev.
  split.
  - unfold eval. rewrite (eval_trials_cached (trials e1) e1 rng2 Hev).
    fold (observations e1). rewrite Hobs. reflexivity.
  - rewrite (eval_new_trial e1 (a :: generator_run) rng2 W1 Hev), Hobs.
    reflexivity.
Qed.

(** X11.  However a run ends, after [k] completed rounds (all [n] of
    them, or the [i] before the one that raised) the experiment holds
    [1 + k] trials numbered from 0: the warm-start batch of [w] arms,
    then one trial of [b] arms per round; its name, search space and
    objective are the ones it was created with. *)
Theorem run_trials (w n b : nat) (rng0 : rng_state) (nb : Notebook)
    (out : outcome) :
  run w n b rng0 = (nb, out) ->
  let k := match out with Done => n | Failed i _ => i end in
  map trial_index (trials (exp nb)) = seq 0 (S k) /\
  map (fun t => length (trial_arms t)) (trials (exp nb)) = w :: repeat b k /\
  exp_name (exp nb) = "test_branin" /\
  exp_search_space (exp nb) = search_space /\
  objective_name (exp nb) = "branin" /\
  minimize (exp nb) = true.
Proof.
  unfold run. intros H.
  destruct (optimization_loop_trials b _ _ _ _ (well_recorded_warm_start w rng0) H)
    as (_ & k & Hk & Hi & Hs & Hn & Hsp & Ho & Hmin).
  assert (Ek : k = match out with Done => n | Failed i _ => i end).
  { destruct out as [ | i e].
    - rewrite length_seq in Hk. exact Hk.
    - apply lookup_seq in Hk as [-> _]. reflexivity. }
  cbv zeta. rewrite <- Ek.
  unfold warm_start in Hi, Hs, Hn, Hsp, Ho, Hmin.
  cbn [exp new_trial fst trials new_experiment app map length trial_index
         trial_arms exp_name exp_search_space objective_name minimize]
    in Hi, Hs, Hn, Hsp, Ho, Hmin.
  rewrite length_sobol_gen in Hs. auto 10.
Qed.

(** X12.  What the names hold when round [i] raises.  The rounds before
    fell through, and the failing round attaches no trial and leaves
    [batch] as it was.  [custom_model] and [batch] held nothing before
    the first round, and after round [j] the model of that round,
    fitted on the [w + j * b] observations it evaluated, and the trial
    of its [b] candidates, the last trial of the experiment.  When
    [make_custom_model] raises, [custom_model] is left as it was; when
    [custom_model.gen] raises, [custom_model] is already the model of
    the failing round, on [w + i * b] observations. *)
Theorem run_failure_leaves_previous_round (w n b : nat) (rng0 : rng_state)
    (nb : Notebook) (i : nat) (e : exn) :
  run w n b rng0 = (nb, Failed i e) ->
  exists prev : Notebook,
    run w i b rng0 = (prev, Done) /\
    trials (exp nb) = trials (exp prev) /\
    batch nb = batch prev /\
    match i with
    | 0 => custom_model prev = None /\ batch prev = None
    | S j =>
        exists (cm0 : TorchModelBridge) (t : Trial),
          custom_model prev = Some cm0 /\ batch prev = Some t /\
          length (bridge_data cm0) = w + j * b /\
          gen cm0 b = Ok (trial_arms t) /\ trial_index t = S j /\
          last (trials (exp prev)) = Some t
    end /\
    ((exists exp1,
         make_custom_model (exp prev) (rng prev) = (Raised e, exp1, rng nb) /\
         custom_model nb = custom_model prev) \/
     (exists cm exp1,
         make_custom_model (exp prev) (rng prev) = (Ok cm, exp1, rng nb) /\
         gen cm b = Raised e /\
         custom_model nb = Some cm /\
         length (bridge_data cm) = w + i * b)).
Proof.
  intros H. destruct (run_failed _ _ _ _ _ _ _ H) as (Hlt & prev & Hp & Hcase).
  pose proof (run_well_recorded _ _ _ _ _ _ Hp) as Wp.
  exists prev. split; [ exact Hp | ].
  assert (Hnames : trials (exp nb) = trials (exp prev) /\ batch nb = batch prev).
  { destruct Hcase as [(exp1 & Hm & ->) | (cm & exp1 & Hm & _ & ->)];
      destruct (make_custom_model_spec _ _ _ _ _ Wp Hm) as (_ & M);
      cbn [after_failure after_gen_failure exp batch];
      (split; [ apply M | reflexivity ]). }
  destruct Hnames as [Htr Hb]. split; [ exact Htr | ]. split; [ exact Hb | ].
  split.
  - destruct i as [ | j].
    + cbn in Hp. injection Hp as <-. split; reflexivity.
    + destruct (run_last _ _ _ _ _ Hp)
        as (pp & cm0 & exp0 & rng0' & gr0 & Hpp & Hm0 & Hg0 & ->).
      pose proof (run_well_recorded _ _ _ _ _ _ Hpp) as Wpp.
      destruct (make_custom_model_returns _ _ _ _ _ Hm0) as (He0 & _).
      destruct (make_custom_model_spec _ _ _ _ _ Wpp Hm0)
        as (_ & _ & _ & _ & _ & T0 & _).
      exists cm0, (snd (new_trial exp0 gr0)).
      cbn [after_round custom_model batch exp new_trial snd fst trial_arms
             trial_index trials].
      split; [ reflexivity | ]. split; [ reflexivity | ].
      split.
      { rewrite (eval_length _ _ _ _ _ Wpp He0). apply (run_arms _ _ _ _ _ _ Hpp). }
      split; [ exact Hg0 | ]. split; [ | apply last_snoc ].
      unfold run in Hpp.
      destruct (optimization_loop_trials b _ _ _ _
                  (well_recorded_warm_start w rng0) Hpp) as (_ & k & Hk & Hi & _).
      rewrite length_seq in Hk. subst k.
      apply (f_equal (@length nat)) in Hi.
      rewrite length_app, !length_map, length_seq in Hi.
      unfold warm_start in Hi. cbn [exp new_trial fst trials] in Hi.
      rewrite length_app in Hi. cbn [new_experiment trials length] in Hi.
      rewrite T0. lia.
  - destruct Hcase as [(exp1 & Hm & ->) | (cm & exp1 & Hm & Hg & ->)].
    + left. exists exp1. cbn [after_failure rng custom_model] in *.
      split; [ exact Hm | reflexivity ].
    + right. exists cm, exp1. cbn [after_gen_failure rng custom_model] in *.
      split; [ exact Hm | ]. split; [ exact Hg | ]. split; [ reflexivity | ].
      destruct (make_custom_model_returns _ _ _ _ _ Hm) as (He & _).
      rewrite (eval_length _ _ _ _ _ Wp He). apply (run_arms _ _ _ _ _ _ Hp).
Qed.

End NotebookProperties.

(** ** The further properties on the stand-in libraries *)

Lemma branin_reads_x1_x2_only_witness :
  branin (py := Stub.python)
    {[ "x1" := of_int 1; "x2" := of_int 2 ]} [None] 0 =
  branin (py := Stub.python)
    {[ "x1" := of_int 1; "x2" := of_int 2; "x3" := of_int 7 ]} [] 0.
Proof.
  refine (branin_reads_x1_x2_only (py := Stub.python) _ _ [None] [] 0 _ _).
  - vm_compute. reflexivity.
  - vm_compute. reflexivity.
Defined.

Lemma branin_overflow_witness :
  branin (py := Stub.python)
    {[ "x1" := S754_finite false 4503599627370496 460; "x2" := zero ]} [None] 0
  = (Raised OverflowError, 0).
Proof.
  refine (branin_overflow (py := Stub.python) _ [None] 0
            false 4503599627370496 460 _ _ _).
  - vm_compute. reflexivity.
  - exists zero. vm_compute. reflexivity.
  - vm_compute. discriminate.
Defined.

Lemma factory_collapses_trailing_dimension_witness :
  exists model : SimpleCustomGP (gp := Stub.gpytorch),
    _get_and_fit_custom_model [Stub.X_train] [Stub.Y_train] ∅ = Ok model /\
    train_X model = Stub.X_train /\
    train_Y model = {| shape := [2]; entries := [of_int 7; of_int 9] |} /\
    ard_num_dims model = 2.
Proof.
  assert (H : _get_and_fit_custom_model (gp := Stub.gpytorch)
                [Stub.X_train] [Stub.Y_train] ∅
              = Ok {| train_X := Stub.X_train; train_Y := view_flat Stub.Y_train;
                      ard_num_dims := 2;
                      state := initial_state (GPLibs := Stub.gpytorch) 2 |}).
  { reflexivity. }
  eexists. split; [ exact H | ].
  exact (factory_collapses_trailing_dimension (gp := Stub.gpytorch)
           Stub.X_train 2 2 [of_int 7; of_int 9] [] [] ∅ _ eq_refl H).
Defined.

Lemma eval_rows_witness :
  map (fun o => (obs_trial o, obs_arm o)) Stub.warm_data =
    flat_map (fun t => map (pair (trial_index t)) (trial_arms t))
             (trials (exp Stub.warm)) /\
  Forall branin_row Stub.warm_data /\
  observations Stub.warm_evaluated = Stub.warm_data.
Proof.
  assert (H : eval (py := Stub.python) (exp Stub.warm) 0
              = (Ok Stub.warm_data, Stub.warm_evaluated, 5)).
  { vm_compute. reflexivity. }
  exact (eval_rows (py := Stub.python) (exp Stub.warm) Stub.warm_evaluated 0 5
           Stub.warm_data
           (well_recorded_warm_start (py := Stub.python) (gp := Stub.diverging)
              (ax := Stub.ax _) 5 0)
           H).
Defined.

Lemma eval_after_new_trial_witness :
  eval (py := Stub.python) Stub.warm_evaluated 7
    = (Ok Stub.warm_data, Stub.warm_evaluated, 7).
Proof.
  assert (H : eval (py := Stub.python) (exp Stub.warm) 0
              = (Ok Stub.warm_data, Stub.warm_evaluated, 5)).
  { vm_compute. reflexivity. }
  exact (proj1 (eval_after_new_trial (py := Stub.python) (exp Stub.warm)
                  Stub.warm_evaluated (Stub.point 0 1) [] 0 5 7 Stub.warm_data
                  (well_recorded_warm_start (py := Stub.python)
                     (gp := Stub.diverging) (ax := Stub.ax _) 5 0)
                  H)).
Defined.

Lemma run_trials_witness :
  map trial_index (trials (exp Stub.finished)) = seq 0 6 /\
  map (fun t => length (trial_arms t)) (trials (exp Stub.finished))
    = 5 :: repeat 1 5 /\
  exp_name (exp Stub.finished) = "test_branin" /\
  exp_search_space (exp Stub.finished) = search_space /\
  objective_name (exp Stub.finished) = "branin" /\
  minimize (exp Stub.finished) = true.
Proof.
  assert (H : run (py := Stub.python) (gp := Stub.gpytorch) (ax := Stub.ax _)
                5 5 1 0 = (Stub.finished, Done)).
  { vm_compute. reflexivity. }
  exact (run_trials (py := Stub.python) (gp := Stub.gpytorch) (ax := Stub.ax _)
           5 5 1 0 Stub.finished Done H).
Defined.

Lemma run_failure_leaves_previous_round_witness :
  exists prev : Notebook (py := Stub.python) (gp := Stalling.gpytorch),
    run (py := Stub.python) (gp := Stalling.gpytorch) (ax := Stub.ax _) 5 1 1 0
      = (prev, Done) /\
    trials (exp Stalling.stopped) = trials (exp prev) /\
    batch Stalling.stopped = batch prev /\
    (exists (cm0 : TorchModelBridge) (t : Trial),
        custom_model prev = Some cm0 /\ batch prev = Some t /\
        length (bridge_data cm0) = 5 + 0 * 1 /\
        gen (ax := Stub.ax _) cm0 1 = Ok (trial_arms t) /\ trial_index t = 1 /\
        last (trials (exp prev)) = Some t) /\
    ((exists exp1,
         make_custom_model (py := Stub.python) (gp := Stalling.gpytorch)
           (ax := Stub.ax _) (exp prev) (rng prev)
           = (Raised (OtherError "NotPSDError"), exp1, rng Stalling.stopped) /\
         custom_model Stalling.stopped = custom_model prev) \/
     (exists cm exp1,
         make_custom_model (py := Stub.python) (gp := Stalling.gpytorch)
           (ax := Stub.ax _) (exp prev) (rng prev)
           = (Ok cm, exp1, rng Stalling.stopped) /\
         gen (ax := Stub.ax _) cm 1 = Raised (OtherError "NotPSDError") /\
         custom_model Stalling.stopped = Some cm /\
         length (bridge_data cm) = 5 + 1 * 1)).
Proof.
  assert (H : run (py := Stub.python) (gp := Stalling.gpytorch) (ax := Stub.ax _)
                5 5 1 0
              = (Stalling.stopped, Failed 1 (OtherError "NotPSDError"))).
  { vm_compute. reflexivity. }
  exact (run_failure_leaves_previous_round (py := Stub.python)
           (gp := Stalling.gpytorch) (ax := Stub.ax _)
           5 5 1 0 Stalling.stopped 1 (OtherError "NotPSDError") H).
Defined.
